(** * xgql: reference identities, resource classification and connections

    A shallow embedding of [internal/graph/model/common.go],
    [internal/graph/model/composite.go] and the configuration resolvers,
    together with the properties of the identity codec, the classifier and
    the connection resolvers.

    Conventions.  A Go [string] is a sequence of bytes: it is a [string] of
    the Standard Library, whose characters are the 256 values of [ascii].
    Go's [int] and [uint] are 64 bits wide; they are integers of [Z] and the
    wrap-around of an increment is written out.  A Go function returning
    [(T, error)] returns a pair whose second component is [None] for a [nil]
    error. *)

From Stdlib Require Import ZArith List String Ascii Bool Lia.
Import ListNotations.

Set Warnings "-register-all".

Local Open Scope Z_scope.
Local Open Scope string_scope.

(** ** Go errors, as built by github.com/pkg/errors *)

Module errors.

Inductive error : Type :=
| fundamental (msg : string)                 (* errors.New *)
| withMessage (cause : error) (msg : string) (* errors.Wrap on a non-nil error *)
| CorruptInputError (offset : Z)             (* encoding/base64 *)
| opaque (msg : string).                     (* an error of a collaborator *)

Definition New (msg : string) : error := fundamental msg.

(** [errors.Wrap] returns nil when the error it is given is nil. *)
Definition Wrap (err : option error) (msg : string) : option error :=
  match err with
  | None => None
  | Some e => Some (withMessage e msg)
  end.

End errors.

(** ** package strings

    [strings.Split] and [strings.Count] for a separator of one byte, which is
    how both call sites use them. *)

Module strings.

(** [Split s sep] cuts [s] at every [sep]; the result has one more part than
    [s] has separators and is never empty. *)
Fixpoint Split (s : string) (sep : ascii) : list string :=
  match s with
  | EmptyString => [EmptyString]
  | String c rest =>
      if Ascii.eqb c sep then EmptyString :: Split rest sep
      else match Split rest sep with
           | part :: parts => String c part :: parts
           | [] => [String c EmptyString]
           end
  end.

Fixpoint Count (s : string) (sep : ascii) : Z :=
  match s with
  | EmptyString => 0
  | String c rest => (if Ascii.eqb c sep then 1 else 0) + Count rest sep
  end.

Fixpoint Contains (s : string) (sep : ascii) : bool :=
  match s with
  | EmptyString => false
  | String c rest => Ascii.eqb c sep || Contains rest sep
  end.

End strings.

(** ** package encoding/base64, the encoding [RawStdEncoding]

    The standard alphabet, no padding character, not strict. *)

Module base64.

Definition Z_of_byte (c : ascii) : Z := Z.of_N (N_of_ascii c).

(** The conversion [byte(v)] of an unsigned integer keeps its low 8 bits. *)
Definition byte_of_Z (v : Z) : ascii := ascii_of_N (Z.to_N (Z.land v 255)).

Definition encodeStd : string :=
  "ABCDEFGHIJKLMNOPQRSTUVWXYZabcdefghijklmnopqrstuvwxyz0123456789+/".

(** [enc.encode[i]] *)
Definition encode (i : Z) : ascii :=
  match String.get (Z.to_nat i) encodeStd with
  | Some c => c
  | None => zero
  end.

Fixpoint index_from (c : ascii) (alphabet : string) (i : Z) : Z :=
  match alphabet with
  | EmptyString => 255
  | String a rest => if Ascii.eqb a c then i else index_from c rest (i + 1)
  end.

(** [enc.decodeMap[c]]: the position of [c] in the alphabet, 0xFF for a byte
    that is not in it. *)
Definition decodeMap (c : ascii) : Z := index_from c encodeStd 0.

Definition sextets (val : Z) : Z * Z * Z * Z :=
  (Z.land (Z.shiftr val 18) 63, Z.land (Z.shiftr val 12) 63,
   Z.land (Z.shiftr val 6) 63, Z.land val 63).

(** [Encode]: three source bytes give four characters; a remainder of one
    byte gives two characters and a remainder of two bytes gives three. *)
Fixpoint EncodeToString (src : string) : string :=
  match src with
  | String a (String b (String c rest)) =>
      let val := Z.lor (Z.lor (Z.shiftl (Z_of_byte a) 16) (Z.shiftl (Z_of_byte b) 8))
                       (Z_of_byte c) in
      let '(s0, s1, s2, s3) := sextets val in
      String (encode s0) (String (encode s1) (String (encode s2) (String (encode s3)
        (EncodeToString rest))))
  | String a (String b EmptyString) =>
      let val := Z.lor (Z.shiftl (Z_of_byte a) 16) (Z.shiftl (Z_of_byte b) 8) in
      let '(s0, s1, s2, _) := sextets val in
      String (encode s0) (String (encode s1) (String (encode s2) EmptyString))
  | String a EmptyString =>
      let val := Z.shiftl (Z_of_byte a) 16 in
      let '(s0, s1, _, _) := sextets val in
      String (encode s0) (String (encode s1) EmptyString)
  | EmptyString => EmptyString
  end.

(** The end of [decodeQuantum]: four 6-bit values make three bytes, of which
    the first [dlen - 1] are written. *)
Definition quantum (dlen : nat) (d0 d1 d2 d3 : Z) : string :=
  let val := Z.lor (Z.lor (Z.lor (Z.shiftl d0 18) (Z.shiftl d1 12)) (Z.shiftl d2 6)) d3 in
  let b0 := byte_of_Z (Z.shiftr val 16) in
  let b1 := byte_of_Z (Z.shiftr val 8) in
  let b2 := byte_of_Z (Z.shiftr val 0) in
  match dlen with
  | 4%nat => String b0 (String b1 (String b2 EmptyString))
  | 3%nat => String b0 (String b1 EmptyString)
  | 2%nat => String b0 EmptyString
  | _ => EmptyString
  end.

Definition isNewline (c : ascii) : bool :=
  Ascii.eqb c "010"%char || Ascii.eqb c "013"%char.

(** [Decode]: [si] is the index of the next source byte and [dbuf] holds the
    6-bit values of the quantum being read.  Carriage returns and line feeds
    are skipped; any other byte outside the alphabet is corrupt input, and so
    is an input that ends one character into a quantum.  The bytes decoded
    before an error are returned with it.  A quantum is written out as soon
    as its fourth value is read, so [dbuf] never holds more than three. *)
Fixpoint Decode (src : string) (si : Z) (dbuf : list Z) : string * option errors.error :=
  match src with
  | EmptyString =>
      match dbuf with
      | [] => (EmptyString, None)
      | [_] => (EmptyString, Some (errors.CorruptInputError (si - 1)))
      | [d0; d1] => (quantum 2 d0 d1 0 0, None)
      | [d0; d1; d2] => (quantum 3 d0 d1 d2 0, None)
      | _ => (EmptyString, None)
      end
  | String c rest =>
      let out := decodeMap c in
      if negb (Z.eqb out 255) then
        match dbuf with
        | [d0; d1; d2] =>
            let (bs, err) := Decode rest (si + 1) [] in
            ((quantum 4 d0 d1 d2 out ++ bs)%string, err)
        | _ => Decode rest (si + 1) (dbuf ++ [out])%list
        end
      else if isNewline c then Decode rest (si + 1) dbuf
      else (EmptyString, Some (errors.CorruptInputError si))
  end.

Definition DecodeString (s : string) : string * option errors.error := Decode s 0 [].

End base64.

(** ** k8s.io/apimachinery: untyped objects, group/version/kind, owners *)

Module schema.

Record GroupVersion : Type := mkGroupVersion { gv_Group : string; gv_Version : string }.

Record GroupVersionKind : Type := mkGroupVersionKind {
  Group : string;
  Version : string;
  Kind : string
}.

Definition GroupVersionKind_eqb (a b : GroupVersionKind) : bool :=
  String.eqb (Group a) (Group b) && String.eqb (Version a) (Version b)
  && String.eqb (Kind a) (Kind b).

Definition ParseGroupVersion (gv : string) : GroupVersion * option errors.error :=
  if Nat.eqb (String.length gv) 0 || String.eqb gv "/" then (mkGroupVersion EmptyString EmptyString, None)
  else
    let n := strings.Count gv "/"%char in
    if Z.eqb n 0 then (mkGroupVersion EmptyString gv, None)
    else if Z.eqb n 1 then
      let parts := strings.Split gv "/"%char in
      (mkGroupVersion (nth 0 parts EmptyString) (nth 1 parts EmptyString), None)
    else (mkGroupVersion EmptyString EmptyString, Some (errors.opaque "unexpected GroupVersion string"))%string.

Definition FromAPIVersionAndKind (apiVersion kind : string) : GroupVersionKind :=
  let (gv, err) := ParseGroupVersion apiVersion in
  match err with
  | None => mkGroupVersionKind (gv_Group gv) (gv_Version gv) kind
  | Some _ => mkGroupVersionKind EmptyString EmptyString kind
  end.

End schema.

Module kunstructured.

(** The dynamically typed content of an object, [map[string]interface{}].
    A map is an association list, looked up by its first matching key. *)
Inductive value : Type :=
| VNull
| VBool (b : bool)
| VNumber (n : Z)
| VString (s : string)
| VList (l : list value)
| VMap (m : list (string * value)).

Record Unstructured : Type := mkUnstructured { Object : list (string * value) }.

Fixpoint lookup (k : string) (m : list (string * value)) : option value :=
  match m with
  | [] => None
  | (k', v) :: rest => if String.eqb k' k then Some v else lookup k rest
  end.

Fixpoint NestedField (v : value) (fields : list string) : option value :=
  match fields with
  | [] => Some v
  | f :: fs =>
      match v with
      | VMap m => match lookup f m with
                  | Some v' => NestedField v' fs
                  | None => None
                  end
      | _ => None
      end
  end.

(** [getNestedString]: the empty string when the field is absent or is not
    a string. *)
Definition getNestedString (obj : list (string * value)) (fields : list string) : string :=
  match NestedField (VMap obj) fields with
  | Some (VString s) => s
  | _ => EmptyString
  end.

Definition GetAPIVersion (u : Unstructured) : string := getNestedString (Object u) ["apiVersion"].
Definition GetKind (u : Unstructured) : string := getNestedString (Object u) ["kind"].
Definition GetNamespace (u : Unstructured) : string :=
  getNestedString (Object u) ["metadata"; "namespace"].
Definition GetName (u : Unstructured) : string :=
  getNestedString (Object u) ["metadata"; "name"].

(** [Unstructured.GroupVersionKind] *)
Definition GroupVersionKind (u : Unstructured) : schema.GroupVersionKind :=
  let (gv, err) := schema.ParseGroupVersion (GetAPIVersion u) in
  match err with
  | Some _ => schema.mkGroupVersionKind EmptyString EmptyString EmptyString
  | None => schema.mkGroupVersionKind (schema.gv_Group gv) (schema.gv_Version gv) (GetKind u)
  end.

End kunstructured.

Module runtime.

(** What [convert] needs of a [runtime.Object]: the pointer to a fresh value
    [&T{}], the structural conversion of
    [runtime.DefaultUnstructuredConverter], and the setter of its kind. *)
Class Object (T : Type) : Type := {
  fresh : T;
  FromUnstructured : list (string * kunstructured.value) -> T -> T * option errors.error;
  SetGroupVersionKind : schema.GroupVersionKind -> T -> T
}.

End runtime.

Module metav1.

Record OwnerReference : Type := mkOwnerReference {
  APIVersion : string;
  Kind : string;
  Name : string;
  UID : string;
  Controller : option bool
}.

Fixpoint GetControllerOfNoCopy (refs : list OwnerReference) : option OwnerReference :=
  match refs with
  | [] => None
  | r :: rest =>
      match Controller r with
      | Some true => Some r
      | _ => GetControllerOfNoCopy rest
      end
  end.

Record LabelSelector : Type := mkLabelSelector { MatchLabels : list (string * string) }.

End metav1.

Module pointer.

Definition BoolPtrDerefOr (ptr : option bool) (def : bool) : bool :=
  match ptr with
  | Some b => b
  | None => def
  end.

End pointer.

(** ** github.com/crossplane: the package and extension kinds *)

Module xpv1.

Record TypedReference : Type := mkTypedReference {
  APIVersion : string;
  Kind : string;
  Name : string
}.

Record Condition (Time : Type) : Type := mkCondition {
  Type_ : string;
  Status : string;
  LastTransitionTime : Time;
  Reason : string;
  Message : string
}.
Arguments mkCondition {Time}.
Arguments Type_ {Time}.
Arguments Status {Time}.
Arguments LastTransitionTime {Time}.
Arguments Reason {Time}.
Arguments Message {Time}.

End xpv1.

Module pkgv1.

Definition Group : string := "pkg.crossplane.io".
Definition Version : string := "v1".

Definition ProviderGroupVersionKind := schema.mkGroupVersionKind Group Version "Provider".
Definition ProviderRevisionGroupVersionKind :=
  schema.mkGroupVersionKind Group Version "ProviderRevision".
Definition ConfigurationGroupVersionKind :=
  schema.mkGroupVersionKind Group Version "Configuration".
Definition ConfigurationRevisionGroupVersionKind :=
  schema.mkGroupVersionKind Group Version "ConfigurationRevision".

Definition PackageRevisionActive : string := "Active".

(** The fields of a [ConfigurationRevision] that the resolvers read. *)
Record ConfigurationRevision : Type := mkConfigurationRevision {
  Name : string;
  OwnerReferences : list metav1.OwnerReference;
  Spec_DesiredState : string
}.

Definition GetControllerOf (cr : ConfigurationRevision) : option metav1.OwnerReference :=
  metav1.GetControllerOfNoCopy (OwnerReferences cr).

End pkgv1.

Module extv1.

Definition Group : string := "apiextensions.crossplane.io".
Definition Version : string := "v1".
Definition CompositeResourceDefinitionKind : string := "CompositeResourceDefinition".
Definition CompositionKind : string := "Composition".

Definition CompositeResourceDefinitionGroupVersionKind :=
  schema.mkGroupVersionKind Group Version CompositeResourceDefinitionKind.

End extv1.

(** ** Collaborators

    The parts of the repository and of its libraries that the three source
    files call but do not define: the generated output records, the typed
    shapes of the packages, the shape heuristics of [internal/unstructured],
    the per-kind modelling functions of package [model], JSON marshalling
    and the accessors of a composite resource.  Every definition below is
    parametric in them. *)

Class Externals : Type := {
  (* typed backend shapes *)
  pkgv1_Provider : Type;
  pkgv1_ProviderRevision : Type;
  pkgv1_Configuration : Type;
  extv1_CompositeResourceDefinition : Type;
  extv1_Composition : Type;
  Provider_Object :: runtime.Object pkgv1_Provider;
  ProviderRevision_Object :: runtime.Object pkgv1_ProviderRevision;
  Configuration_Object :: runtime.Object pkgv1_Configuration;
  ConfigurationRevision_Object :: runtime.Object pkgv1.ConfigurationRevision;
  CompositeResourceDefinition_Object :: runtime.Object extv1_CompositeResourceDefinition;
  (* generated output records of package model *)
  ObjectMeta : Type;
  ManagedResource : Type;
  ProviderConfig : Type;
  Provider : Type;
  ProviderRevision : Type;
  Configuration : Type;
  ConfigurationRevision : Type;
  CompositeResourceDefinition : Type;
  Composition : Type;
  (* obj.Metadata.UID of a model.Configuration *)
  Configuration_Metadata_UID : Configuration -> string;
  (* internal/unstructured *)
  ProbablyManaged : kunstructured.Unstructured -> bool;
  ProbablyProviderConfig : kunstructured.Unstructured -> bool;
  ProbablyComposite : kunstructured.Unstructured -> bool;
  (* package model, other files *)
  GetObjectMeta : kunstructured.Unstructured -> ObjectMeta;
  GetManagedResource : kunstructured.Unstructured -> ManagedResource * option errors.error;
  GetProviderConfig : kunstructured.Unstructured -> ProviderConfig * option errors.error;
  GetProvider : pkgv1_Provider -> Provider * option errors.error;
  GetProviderRevision : pkgv1_ProviderRevision -> ProviderRevision * option errors.error;
  GetConfiguration : pkgv1_Configuration -> Configuration * option errors.error;
  GetConfigurationRevision :
    pkgv1.ConfigurationRevision -> ConfigurationRevision * option errors.error;
  GetCompositeResourceDefinition :
    extv1_CompositeResourceDefinition -> CompositeResourceDefinition * option errors.error;
  GetComposition : extv1_Composition -> Composition * option errors.error;
  (* json.Marshal of an unstructured object *)
  json_Marshal : kunstructured.Unstructured -> string * option errors.error;
  (* accessors of unstructured.Composite *)
  Time : Type;
  ObjectReference : Type;
  SecretReference : Type;
  GetCompositionSelector : kunstructured.Unstructured -> option metav1.LabelSelector;
  GetCompositionReference : kunstructured.Unstructured -> option ObjectReference;
  GetClaimReference : kunstructured.Unstructured -> option ObjectReference;
  GetResourceReferences : kunstructured.Unstructured -> option (list ObjectReference);
  GetWriteConnectionSecretToReference : kunstructured.Unstructured -> option SecretReference;
  GetConditions_of : kunstructured.Unstructured -> option (list (xpv1.Condition Time));
  GetConnectionDetailsLastPublishedTime_of : kunstructured.Unstructured -> option Time;
  (* internal/token and context *)
  Context_ : Type;
  token_FromContext : Context_ -> string * bool
}.

(** ** Slices written by index *)

Module slice.

(** [make([]T, n)]: [n] zero values. *)
Definition make {A : Type} (zero : A) (n : nat) : list A := repeat zero n.

(** [out[i] = f(out[i])] for an index within the slice.  An index out of
    range leaves the list as it is; Go would panic there, and the loops
    below write below the length only. *)
Fixpoint update {A : Type} (out : list A) (i : nat) (f : A -> A) : list A :=
  match out, i with
  | [], _ => []
  | x :: rest, O => f x :: rest
  | x :: rest, S j => x :: update rest j f
  end.

(** [for i := range in { out = body(i, in[i], out) }], from index [i] on. *)
Fixpoint for_range {A B : Type} (body : nat -> A -> B -> B) (i : nat) (in_ : list A)
    (out : B) : B :=
  match in_ with
  | [] => out
  | x :: rest => for_range body (S i) rest (body i x out)
  end.

End slice.

(** ** k8s.io/apiextensions-apiserver and k8s.io/api/core

    The typed objects that [GetCustomResourceDefinition] and [GetSecret]
    read, with the fields that they read.  A nil slice or pointer is
    [None]. *)

Class Schemas : Type := {
  JSONSchemaProps : Type;
  (* json.Marshal of an OpenAPI schema *)
  json_Marshal_JSONSchemaProps : JSONSchemaProps -> string * option errors.error
}.

Module kextv1.

Section Types.
Context `{E : Externals} `{S : Schemas}.

Record CustomResourceValidation : Type := mkCustomResourceValidation {
  OpenAPIV3Schema : option JSONSchemaProps
}.

Record CustomResourceDefinitionVersion : Type := mkCustomResourceDefinitionVersion {
  Version_Name : string;
  Served : bool;
  Schema : option CustomResourceValidation
}.

Record CustomResourceDefinitionCondition : Type := mkCustomResourceDefinitionCondition {
  Type_ : string;
  Status : string;
  LastTransitionTime : Time;
  Reason : string;
  Message : string
}.

Record CustomResourceDefinitionNames : Type := mkCustomResourceDefinitionNames {
  Plural : string;
  Singular : string;
  ShortNames : option (list string);
  Names_Kind : string;
  ListKind : string;
  Categories : option (list string)
}.

Record CustomResourceDefinition : Type := mkCustomResourceDefinition {
  APIVersion : string;
  Kind : string;
  Namespace : string;
  Name : string;
  Spec_Group : string;
  Spec_Names : CustomResourceDefinitionNames;
  Spec_Versions : option (list CustomResourceDefinitionVersion);
  Status_Conditions : option (list CustomResourceDefinitionCondition)
}.

End Types.

End kextv1.

Module corev1.

Record Secret : Type := mkSecret {
  APIVersion : string;
  Kind : string;
  Namespace : string;
  Name : string
}.

End corev1.

(** What the two functions call and the source files do not define. *)
Class Kubernetes `{E : Externals} `{S : Schemas} : Type := {
  (* the zero value time.Time{} *)
  Time_zero : Time;
  (* GetObjectMeta of package model, at the two typed objects *)
  GetObjectMeta_Secret : corev1.Secret -> ObjectMeta;
  GetObjectMeta_CustomResourceDefinition : kextv1.CustomResourceDefinition -> ObjectMeta;
  (* json.Marshal of the two typed objects *)
  json_Marshal_Secret : corev1.Secret -> string * option errors.error;
  json_Marshal_CustomResourceDefinition :
    kextv1.CustomResourceDefinition -> string * option errors.error
}.

(** ** package model *)

Module model.

(** Reference ID separator. *)
Definition sep : ascii := "|"%char.

Definition errDecode : string := "cannot decode id".
Definition errMalformed : string := "malformed id".

Record ReferenceID : Type := mkReferenceID {
  APIVersion : string;
  Kind : string;
  Namespace : string;
  Name : string
}.

(** The zero value [ReferenceID{}]. *)
Definition ReferenceID_zero : ReferenceID := mkReferenceID EmptyString EmptyString EmptyString EmptyString.

Definition ParseReferenceID (id : string) : ReferenceID * option errors.error :=
  let (b, err) := base64.DecodeString id in
  match err with
  | Some _ => (ReferenceID_zero, errors.Wrap err errDecode)
  | None =>
      let parts := strings.Split b sep in
      if negb (Nat.eqb (List.length parts) 4) then
        (ReferenceID_zero, Some (errors.New errMalformed))
      else
        (mkReferenceID (nth 0 parts EmptyString) (nth 1 parts EmptyString) (nth 2 parts EmptyString) (nth 3 parts EmptyString),
         None)
  end.

(** [ReferenceID.String] *)
Definition ReferenceID_String (id : ReferenceID) : string :=
  base64.EncodeToString
    (APIVersion id ++ String sep (Kind id ++ String sep (Namespace id ++ String sep (Name id)))).

Definition errParse : string := "cannot parse id".
Definition errType : string := "id must be a string".

(** UnmarshalGQL unmarshals a ReferenceID.  [v] is the value of dynamic type
    that the method is given, [id] the receiver; the receiver is returned as
    the method leaves it. *)
Definition UnmarshalGQL (id : ReferenceID) (v : kunstructured.value)
  : ReferenceID * option errors.error :=
  match v with
  | kunstructured.VString s =>
      let (in_, err) := ParseReferenceID s in
      match err with
      | Some _ => (id, errors.Wrap err errParse)
      | None => (in_, None)
      end
  | _ => (id, Some (errors.New errType))
  end.

(** The double quote. *)
Definition quote : ascii := "034"%char.

(** MarshalGQL marshals a ReferenceID as a string: the bytes that it writes
    to its writer. *)
Definition MarshalGQL (id : ReferenceID) : string :=
  String quote (ReferenceID_String id ++ String quote EmptyString).

Section Records.
Context `{E : Externals}.

Record Condition : Type := mkCondition {
  Condition_Type : string;
  Condition_Status : string;
  Condition_LastTransitionTime : Time;
  Condition_Reason : string;
  Condition_Message : option string
}.

Record LabelSelector : Type := mkLabelSelector {
  MatchLabels : list (string * kunstructured.value)
}.

Record GenericResource : Type := mkGenericResource {
  GenericResource_ID : ReferenceID;
  GenericResource_APIVersion : string;
  GenericResource_Kind : string;
  GenericResource_Metadata : option ObjectMeta;
  GenericResource_Raw : string
}.

(** A CompositeResourceSpec defines the desired state of a composite
    resource. *)
Record CompositeResourceSpec : Type := mkCompositeResourceSpec {
  CompositionSelector : option LabelSelector;
  CompositionReference : option ObjectReference;
  ClaimReference : option ObjectReference;
  ResourceReferences : option (list ObjectReference);
  WritesConnectionSecretToReference : option SecretReference
}.

Record CompositeResourceConnectionDetails : Type := mkCompositeResourceConnectionDetails {
  LastPublishedTime : option Time
}.

Record CompositeResourceStatus : Type := mkCompositeResourceStatus {
  Conditions : option (list Condition);
  ConnectionDetails : option CompositeResourceConnectionDetails
}.

(** Modelled from the spec: the declaration of the generated record
    [CompositeResource] is not among the source files.  Its fields are those
    of the composite literal in [GetCompositeResource], and the [ID] that
    every variant of a KubernetesResource carries, as [GenericResource]
    does. *)
Record CompositeResource : Type := mkCompositeResource {
  CompositeResource_ID : ReferenceID;
  CompositeResource_APIVersion : string;
  CompositeResource_Kind : string;
  CompositeResource_Metadata : option ObjectMeta;
  CompositeResource_Spec : option CompositeResourceSpec;
  CompositeResource_Status : option CompositeResourceStatus;
  CompositeResource_Raw : string
}.

(** The interface [KubernetesResource], closed over the records that
    implement it. *)
Inductive KubernetesResource : Type :=
| IsManagedResource (r : ManagedResource)
| IsProviderConfig (r : ProviderConfig)
| IsCompositeResource (r : CompositeResource)
| IsProvider (r : Provider)
| IsProviderRevision (r : ProviderRevision)
| IsConfiguration (r : Configuration)
| IsConfigurationRevision (r : ConfigurationRevision)
| IsCompositeResourceDefinition (r : CompositeResourceDefinition)
| IsComposition (r : Composition)
| IsGenericResource (r : GenericResource).

Record ConfigurationRevisionConnection : Type := mkConfigurationRevisionConnection {
  Items : list ConfigurationRevision;
  Count : Z
}.

Record KubernetesResourceConnection : Type := mkKubernetesResourceConnection {
  KubernetesResource_Items : list KubernetesResource;
  KubernetesResource_Count : Z
}.

(** The field of a [model.ConfigurationRevisionStatus] that its resolver
    reads. *)
Record ConfigurationRevisionStatus : Type := mkConfigurationRevisionStatus {
  ObjectRefs : list xpv1.TypedReference
}.

(** GetConditions from the supplied Crossplane conditions. *)
Definition GetConditions (xs : option (list (xpv1.Condition Time))) : option (list Condition) :=
  match xs with
  | None => None
  | Some l =>
      Some (map (fun c => mkCondition (xpv1.Type_ c) (xpv1.Status c)
                            (xpv1.LastTransitionTime c) (xpv1.Reason c)
                            (Some (xpv1.Message c))) l)
  end.

(** GetLabelSelector from the supplied Kubernetes label selector. *)
Definition GetLabelSelector (s : option metav1.LabelSelector) : option LabelSelector :=
  match s with
  | None => None
  | Some sel =>
      Some (mkLabelSelector
              (map (fun kv => (fst kv, kunstructured.VString (snd kv)))
                   (metav1.MatchLabels sel)))
  end.

(** GetConnectionDetailsLastPublishedTime from the supplied Kubernetes time. *)
Definition GetConnectionDetailsLastPublishedTime (t : option Time) : option Time :=
  match t with
  | None => None
  | Some t' => Some t'
  end.

Definition GenericResource_zero : GenericResource :=
  mkGenericResource ReferenceID_zero EmptyString EmptyString None EmptyString.

(** GetGenericResource from the suppled Kubernetes resource. *)
Definition GetGenericResource (u : kunstructured.Unstructured)
  : GenericResource * option errors.error :=
  let (raw, err) := json_Marshal u in
  match err with
  | Some _ => (GenericResource_zero, errors.Wrap err "cannot marshal JSON")
  | None =>
      (mkGenericResource
         (mkReferenceID (kunstructured.GetAPIVersion u) (kunstructured.GetKind u)
                        (kunstructured.GetNamespace u) (kunstructured.GetName u))
         (kunstructured.GetAPIVersion u)
         (kunstructured.GetKind u)
         (Some (GetObjectMeta u))
         raw,
       None)
  end.

Definition CompositeResource_zero : CompositeResource :=
  mkCompositeResource ReferenceID_zero EmptyString EmptyString None None None EmptyString.

(** GetCompositeResource from the supplied Crossplane resource.  The literal
    names no [ID], which therefore keeps its zero value. *)
Definition GetCompositeResource (u : kunstructured.Unstructured)
  : CompositeResource * option errors.error :=
  let xr := u in
  let (raw, err) := json_Marshal xr in
  match err with
  | Some _ => (CompositeResource_zero, errors.Wrap err "cannot marshal JSON")
  | None =>
      (mkCompositeResource
         ReferenceID_zero
         (kunstructured.GetAPIVersion xr)
         (kunstructured.GetKind xr)
         (Some (GetObjectMeta xr))
         (Some (mkCompositeResourceSpec
                  (GetLabelSelector (GetCompositionSelector xr))
                  (GetCompositionReference xr)
                  (GetClaimReference xr)
                  (GetResourceReferences xr)
                  (GetWriteConnectionSecretToReference xr)))
         (Some (mkCompositeResourceStatus
                  (GetConditions (GetConditions_of xr))
                  (Some (mkCompositeResourceConnectionDetails
                           (GetConnectionDetailsLastPublishedTime
                              (GetConnectionDetailsLastPublishedTime_of xr))))))
         raw,
       None)
  end.

Definition convert {T : Type} `{runtime.Object T} (from : kunstructured.Unstructured) (to : T)
  : T * option errors.error :=
  let (to', err) := runtime.FromUnstructured (kunstructured.Object from) to in
  match err with
  | Some _ => (to', errors.Wrap err "could not convert unstructured object")
  | None =>
      (* For whatever reason the *Unstructured's GVK doesn't seem to make it
         through the conversion process. *)
      let gvk := schema.FromAPIVersionAndKind (kunstructured.GetAPIVersion from)
                   (kunstructured.GetKind from) in
      (runtime.SetGroupVersionKind gvk to', None)
  end.

(** GetKubernetesResource from the supplied unstructured Kubernetes
    resource: a long but simple switch, whose first true case is taken.  The
    first component is [None] for the nil interface. *)
Definition GetKubernetesResource (u : kunstructured.Unstructured)
  : option KubernetesResource * option errors.error :=
  if ProbablyManaged u then
    let (out, err) := GetManagedResource u in
    (Some (IsManagedResource out), errors.Wrap err "cannot model managed resource")
  else if ProbablyProviderConfig u then
    let (out, err) := GetProviderConfig u in
    (Some (IsProviderConfig out), errors.Wrap err "cannot model provider config")
  else if ProbablyComposite u then
    let (out, err) := GetCompositeResource u in
    (Some (IsCompositeResource out), errors.Wrap err "cannot model composite resource")
  else if schema.GroupVersionKind_eqb (kunstructured.GroupVersionKind u) pkgv1.ProviderGroupVersionKind then
    let (p, err) := convert u (runtime.fresh (T := pkgv1_Provider)) in
    match err with
    | Some _ => (None, errors.Wrap err "cannot convert provider")
    | None =>
        let (out, err) := GetProvider p in
        (Some (IsProvider out), errors.Wrap err "cannot model provider")
    end
  else if schema.GroupVersionKind_eqb (kunstructured.GroupVersionKind u)
            pkgv1.ProviderRevisionGroupVersionKind then
    let (pr, err) := convert u (runtime.fresh (T := pkgv1_ProviderRevision)) in
    match err with
    | Some _ => (None, errors.Wrap err "cannot convert provider revision")
    | None =>
        let (out, err) := GetProviderRevision pr in
        (Some (IsProviderRevision out), errors.Wrap err "cannot model provider revision")
    end
  else if schema.GroupVersionKind_eqb (kunstructured.GroupVersionKind u)
            pkgv1.ConfigurationGroupVersionKind then
    let (c, err) := convert u (runtime.fresh (T := pkgv1_Configuration)) in
    match err with
    | Some _ => (None, errors.Wrap err "cannot convert configuration")
    | None =>
        let (out, err) := GetConfiguration c in
        (Some (IsConfiguration out), errors.Wrap err "cannot model configuration")
    end
  else if schema.GroupVersionKind_eqb (kunstructured.GroupVersionKind u)
            pkgv1.ConfigurationRevisionGroupVersionKind then
    let (cr, err) := convert u (runtime.fresh (T := pkgv1.ConfigurationRevision)) in
    match err with
    | Some _ => (None, errors.Wrap err "cannot convert configuration revision")
    | None =>
        let (out, err) := GetConfigurationRevision cr in
        (Some (IsConfigurationRevision out),
         errors.Wrap err "cannot model configuration revision")
    end
  else if schema.GroupVersionKind_eqb (kunstructured.GroupVersionKind u)
            extv1.CompositeResourceDefinitionGroupVersionKind then
    let (xrd, err) := convert u (runtime.fresh (T := extv1_CompositeResourceDefinition)) in
    match err with
    | Some _ => (None, errors.Wrap err "cannot convert composite resource definition")
    | None =>
        let (out, err) := GetCompositeResourceDefinition xrd in
        (Some (IsCompositeResourceDefinition out),
         errors.Wrap err "cannot model composite resource definition")
    end
  else
    let (out, err) := GetGenericResource u in
    (Some (IsGenericResource out), errors.Wrap err "cannot model generic resource").

End Records.

Section CustomResources.
Context `{E : Externals} `{S : Schemas} `{K : @Kubernetes E S}.

(** The generated records that the functions below fill, with the fields
    that their composite literals name. *)
Record CustomResourceValidation : Type := mkCustomResourceValidation {
  OpenAPIV3Schema : option string
}.

Record CustomResourceDefinitionVersion : Type := mkCustomResourceDefinitionVersion {
  Version_Name : string;
  Version_Served : bool;
  Version_Schema : option CustomResourceValidation
}.

Record CustomResourceDefinitionNames : Type := mkCustomResourceDefinitionNames {
  Names_Plural : string;
  Names_Singular : option string;
  Names_ShortNames : option (list string);
  Names_Kind : string;
  Names_ListKind : option string;
  Names_Categories : option (list string)
}.

Record CustomResourceDefinitionSpec : Type := mkCustomResourceDefinitionSpec {
  Spec_Group : string;
  Spec_Names : option CustomResourceDefinitionNames;
  Spec_Versions : option (list CustomResourceDefinitionVersion)
}.

Record CustomResourceDefinitionStatus : Type := mkCustomResourceDefinitionStatus {
  Status_Conditions : option (list Condition)
}.

Record CustomResourceDefinition : Type := mkCustomResourceDefinition {
  CustomResourceDefinition_ID : ReferenceID;
  CustomResourceDefinition_APIVersion : string;
  CustomResourceDefinition_Kind : string;
  CustomResourceDefinition_Metadata : option ObjectMeta;
  CustomResourceDefinition_Spec : option CustomResourceDefinitionSpec;
  CustomResourceDefinition_Status : option CustomResourceDefinitionStatus;
  CustomResourceDefinition_Raw : string
}.

Record Secret : Type := mkSecret {
  Secret_ID : ReferenceID;
  Secret_APIVersion : string;
  Secret_Kind : string;
  Secret_Metadata : option ObjectMeta;
  Secret_Raw : string
}.

Definition Condition_zero : Condition :=
  mkCondition EmptyString EmptyString Time_zero EmptyString None.

Definition CustomResourceDefinitionVersion_zero : CustomResourceDefinitionVersion :=
  mkCustomResourceDefinitionVersion EmptyString false None.

(** GetCustomResourceDefinitionVersions from the supplied Kubernetes
    versions.  A schema that cannot be marshalled is left out. *)
Definition GetCustomResourceDefinitionVersions
    (in_ : option (list kextv1.CustomResourceDefinitionVersion))
  : option (list CustomResourceDefinitionVersion) :=
  match in_ with
  | None => None
  | Some l =>
      Some (slice.for_range
              (fun i x out =>
                 let out := slice.update out i (fun _ =>
                              mkCustomResourceDefinitionVersion (kextv1.Version_Name x)
                                (kextv1.Served x) None) in
                 match kextv1.Schema x with
                 | Some s =>
                     match kextv1.OpenAPIV3Schema s with
                     | Some props =>
                         let (raw, err) := json_Marshal_JSONSchemaProps props in
                         match err with
                         | None =>
                             slice.update out i (fun v =>
                               mkCustomResourceDefinitionVersion (Version_Name v)
                                 (Version_Served v)
                                 (Some (mkCustomResourceValidation (Some raw))))
                         | Some _ => out
                         end
                     | None => out
                     end
                 | None => out
                 end)
              0%nat l
              (slice.make CustomResourceDefinitionVersion_zero (List.length l)))
  end.

(** GetCustomResourceDefinitionConditions from the supplied Kubernetes CRD
    conditions. *)
Definition GetCustomResourceDefinitionConditions
    (in_ : option (list kextv1.CustomResourceDefinitionCondition))
  : option (list Condition) :=
  match in_ with
  | None => None
  | Some l =>
      Some (slice.for_range
              (fun i c out =>
                 slice.update out i (fun _ =>
                   mkCondition (kextv1.Type_ c) (kextv1.Status c)
                     (kextv1.LastTransitionTime c) (kextv1.Reason c)
                     (Some (kextv1.Message c))))
              0%nat l (slice.make Condition_zero (List.length l)))
  end.

Definition Secret_zero : Secret := mkSecret ReferenceID_zero EmptyString EmptyString None EmptyString.

(** GetSecret from the suppled Kubernetes Secret *)
Definition GetSecret (s : corev1.Secret) : Secret * option errors.error :=
  let (raw, err) := json_Marshal_Secret s in
  match err with
  | Some _ => (Secret_zero, errors.Wrap err "cannot marshal JSON")
  | None =>
      (mkSecret
         (mkReferenceID (corev1.APIVersion s) (corev1.Kind s) (corev1.Namespace s)
            (corev1.Name s))
         (corev1.APIVersion s)
         (corev1.Kind s)
         (Some (GetObjectMeta_Secret s))
         raw,
       None)
  end.



(** [getIntPtr]: the value of an [int64] pointer, converted to [int]. *)
Definition getIntPtr (i : option Z) : option Z :=
  match i with
  | None => None
  | Some v => Some ((v + 2 ^ 63) mod 2 ^ 64 - 2 ^ 63)
  end.

End CustomResources.

End model.

(** ** Go's [int] *)

Definition MaxInt : Z := 2 ^ 63 - 1.

(** The value of an [int] computation whose exact result is [z]. *)
Definition int (z : Z) : Z := (z + 2 ^ 63) mod 2 ^ 64 - 2 ^ 63.

(** ** package resolvers *)

Module resolvers.

Section Resolvers.
Context `{E : Externals}.

(** A backend client, as the two resolvers use it: the list of all
    ConfigurationRevisions, and the object of a given name of each of the two
    kinds that [Objects] gets. *)
Record Client : Type := mkClient {
  List : list pkgv1.ConfigurationRevision * option errors.error;
  Get_CompositeResourceDefinition : string -> extv1_CompositeResourceDefinition * option errors.error;
  Get_Composition : string -> extv1_Composition * option errors.error
}.

Record ClientCache : Type := mkClientCache {
  Get : string -> Client * option errors.error
}.

Record configuration : Type := mkConfiguration { clients : ClientCache }.

Record configurationRevisionStatus : Type := mkConfigurationRevisionStatus {
  status_clients : ClientCache
}.

(** The body of the loop of [Revisions] over [in.Items], from the item at
    hand to the last one; [out] is the connection built so far. *)
Fixpoint Revisions_range (obj : Configuration) (limit : option Z) (active : option bool)
    (items : list pkgv1.ConfigurationRevision) (out : model.ConfigurationRevisionConnection)
  : option model.ConfigurationRevisionConnection * option errors.error :=
  match items with
  | [] => (Some out, None)
  | cr :: rest =>
      (* We're not the controller reference of this ConfigurationRevision;
         it's not one of ours. *)
      if match pkgv1.GetControllerOf cr with
         | None => true
         | Some c => negb (String.eqb (metav1.UID c) (Configuration_Metadata_UID obj))
         end
      then Revisions_range obj limit active rest out
      (* We only want the active PackageRevision, and this isn't it. *)
      else if pointer.BoolPtrDerefOr active false
              && negb (String.eqb (pkgv1.Spec_DesiredState cr) pkgv1.PackageRevisionActive)
      then Revisions_range obj limit active rest out
      else
        let out := model.mkConfigurationRevisionConnection (model.Items out)
                     (int (model.Count out + 1)) in
        (* We've hit our limit; we only want to count from hereon out. *)
        if match limit with
           | Some l => Z.ltb l (model.Count out)
           | None => false
           end
        then Revisions_range obj limit active rest out
        else
          let (i, err) := GetConfigurationRevision cr in
          match err with
          | Some _ => (None, errors.Wrap err "cannot model configuration revision")
          | None =>
              Revisions_range obj limit active rest
                (model.mkConfigurationRevisionConnection (model.Items out ++ [i])%list
                   (model.Count out))
          end
  end.

Definition Revisions (r : configuration) (ctx : Context_) (obj : Configuration)
    (limit : option Z) (active : option bool)
  : option model.ConfigurationRevisionConnection * option errors.error :=
  let (t, _) := token_FromContext ctx in
  let (c, err) := Get (clients r) t in
  match err with
  | Some _ => (None, errors.Wrap err "cannot get client")
  | None =>
      let (in_, err) := List c in
      match err with
      | Some _ => (None, errors.Wrap err "cannot list configurations")
      | None =>
          Revisions_range obj limit active in_ (model.mkConfigurationRevisionConnection [] 0)
      end
  end.

(** A call [c.Get] of [Objects]: the kind of the object asked for and its
    name. *)
Inductive fetch : Type :=
| FetchCompositeResourceDefinition (name : string)
| FetchComposition (name : string).

(** The body of the loop of [Objects] over [obj.ObjectRefs].  [fetched] is
    the sequence of the calls [c.Get] made so far; it is returned with the
    result. *)
Fixpoint Objects_range (c : Client) (limit : option Z) (refs : list xpv1.TypedReference)
    (out : model.KubernetesResourceConnection) (fetched : list fetch)
  : list fetch * (option model.KubernetesResourceConnection * option errors.error) :=
  match refs with
  | [] => (fetched, (Some out, None))
  | ref :: rest =>
      (* We filter out anything that isn't a CRD, just in case. *)
      if negb (String.eqb (nth 0 (strings.Split (xpv1.APIVersion ref) "/"%char) EmptyString) extv1.Group)
      then Objects_range c limit rest out fetched
      else
        let out := model.mkKubernetesResourceConnection (model.KubernetesResource_Items out)
                     (int (model.KubernetesResource_Count out + 1)) in
        (* We've hit our limit; we only want to count from hereon out. *)
        if match limit with
           | Some l => Z.ltb l (model.KubernetesResource_Count out)
           | None => false
           end
        then Objects_range c limit rest out fetched
        else if String.eqb (xpv1.Kind ref) extv1.CompositeResourceDefinitionKind then
          let fetched := (fetched ++ [FetchCompositeResourceDefinition (xpv1.Name ref)])%list in
          let (xrd, err) := Get_CompositeResourceDefinition c (xpv1.Name ref) in
          match err with
          | Some _ => (fetched, (None, errors.Wrap err "cannot get CompositeResourceDefinition"))
          | None =>
              let (i, err) := GetCompositeResourceDefinition xrd in
              match err with
              | Some _ =>
                  (fetched,
                   (None, errors.Wrap err "cannot model composite resource definition"))
              | None =>
                  Objects_range c limit rest
                    (model.mkKubernetesResourceConnection
                       (model.KubernetesResource_Items out
                          ++ [model.IsCompositeResourceDefinition i])%list
                       (model.KubernetesResource_Count out))
                    fetched
              end
          end
        else if String.eqb (xpv1.Kind ref) extv1.CompositionKind then
          let fetched := (fetched ++ [FetchComposition (xpv1.Name ref)])%list in
          let (cmp, err) := Get_Composition c (xpv1.Name ref) in
          match err with
          | Some _ => (fetched, (None, errors.Wrap err "cannot get Composition"))
          | None =>
              let (i, err) := GetComposition cmp in
              match err with
              | Some _ => (fetched, (None, errors.Wrap err "cannot model composition"))
              | None =>
                  Objects_range c limit rest
                    (model.mkKubernetesResourceConnection
                       (model.KubernetesResource_Items out ++ [model.IsComposition i])%list
                       (model.KubernetesResource_Count out))
                    fetched
              end
          end
        else Objects_range c limit rest out fetched
  end.

Definition Objects (r : configurationRevisionStatus) (ctx : Context_)
    (obj : model.ConfigurationRevisionStatus) (limit : option Z)
  : list fetch * (option model.KubernetesResourceConnection * option errors.error) :=
  let (t, _) := token_FromContext ctx in
  let (c, err) := Get (status_clients r) t in
  match err with
  | Some _ => ([], (None, errors.Wrap err "cannot get client"))
  | None =>
      Objects_range c limit (model.ObjectRefs obj)
        (model.mkKubernetesResourceConnection [] 0) []
  end.

End Resolvers.

End resolvers.

(** * Specification

    The notions the properties are stated with.  They follow the words of
    the design (valid token, surviving candidate, page, ordered rule table)
    and not the code, with which the theorems below compare them. *)

(** ** Tokens *)

(** A character of the standard base64 alphabet: a letter, a digit, [+]
    or [/]. *)
Definition isBase64Char (c : ascii) : bool :=
  let n := nat_of_ascii c in
  ((65 <=? n) && (n <=? 90) || (97 <=? n) && (n <=? 122) || (48 <=? n) && (n <=? 57)
   || (n =? 43) || (n =? 47))%nat.

(** The characters of a token that carry data: all but the line breaks,
    which the decoder of Go ignores. *)
Fixpoint significant (s : string) : list ascii :=
  match s with
  | EmptyString => []
  | String c rest => if base64.isNewline c then significant rest else c :: significant rest
  end.

(** Valid unpadded base64: only characters of the alphabet, and not a single
    character left over after the groups of four. *)
Definition valid_raw_base64 (s : string) : bool :=
  forallb isBase64Char (significant s)
  && negb (Nat.eqb (List.length (significant s) mod 4) 1).

Section Specification.
Context `{E : Externals}.

(** ** Connections *)

(** The relationship filter: the candidate has a controller reference, and
    its UID is that of the parent. *)
Definition controlledBy (obj : Configuration) (cr : pkgv1.ConfigurationRevision) : bool :=
  match pkgv1.GetControllerOf cr with
  | Some c => String.eqb (metav1.UID c) (Configuration_Metadata_UID obj)
  | None => false
  end.

(** The state filter: when only active revisions are asked for, the desired
    state of the candidate is Active. *)
Definition inState (active : option bool) (cr : pkgv1.ConfigurationRevision) : bool :=
  match active with
  | Some true => String.eqb (pkgv1.Spec_DesiredState cr) pkgv1.PackageRevisionActive
  | _ => true
  end.

Definition survives (obj : Configuration) (active : option bool)
    (cr : pkgv1.ConfigurationRevision) : bool :=
  controlledBy obj cr && inState active cr.

Definition survivors (obj : Configuration) (active : option bool)
    (candidates : list pkgv1.ConfigurationRevision) : list pkgv1.ConfigurationRevision :=
  filter (survives obj active) candidates.

(** The part of [l] that belongs to the page when [counted] items have been
    counted already: all of it without a limit, and what the limit leaves
    room for otherwise. *)
Definition page {A : Type} (limit : option Z) (counted : Z) (l : list A) : list A :=
  match limit with
  | None => l
  | Some n => firstn (Z.to_nat (n - counted)) l
  end.

(** Modelling the candidates of a page in order, up to the first failure. *)
Fixpoint modelAll (l : list pkgv1.ConfigurationRevision)
  : list ConfigurationRevision * option errors.error :=
  match l with
  | [] => ([], None)
  | cr :: rest =>
      let (i, err) := GetConfigurationRevision cr in
      match err with
      | Some _ => ([], err)
      | None => let (ms, err') := modelAll rest in (i :: ms, err')
      end
  end.

(** Filter, count, page, model: the connection that continues [out]. *)
Definition connectionOf (obj : Configuration) (limit : option Z) (active : option bool)
    (candidates : list pkgv1.ConfigurationRevision) (out : model.ConfigurationRevisionConnection)
  : option model.ConfigurationRevisionConnection * option errors.error :=
  let svs := survivors obj active candidates in
  let (ms, err) := modelAll (page limit (model.Count out) svs) in
  match err with
  | Some _ => (None, errors.Wrap err "cannot model configuration revision")
  | None =>
      (Some (model.mkConfigurationRevisionConnection (model.Items out ++ ms)
               (model.Count out + Z.of_nat (List.length svs))), None)
  end.

(** ** Object references of a configuration revision *)

Definition inGroup (ref : xpv1.TypedReference) : bool :=
  String.eqb (nth 0 (strings.Split (xpv1.APIVersion ref) "/"%char) EmptyString) extv1.Group.

Definition producesItem (ref : xpv1.TypedReference) : bool :=
  String.eqb (xpv1.Kind ref) extv1.CompositeResourceDefinitionKind
  || String.eqb (xpv1.Kind ref) extv1.CompositionKind.

Definition fetchOf (ref : xpv1.TypedReference) : resolvers.fetch :=
  if String.eqb (xpv1.Kind ref) extv1.CompositeResourceDefinitionKind
  then resolvers.FetchCompositeResourceDefinition (xpv1.Name ref)
  else resolvers.FetchComposition (xpv1.Name ref).

(** Getting and modelling the references of a page in order, up to the first
    failure; a reference of another kind is passed over. *)
Fixpoint modelRefs (c : resolvers.Client) (refs : list xpv1.TypedReference)
  : list resolvers.fetch * (list model.KubernetesResource * option errors.error) :=
  match refs with
  | [] => ([], ([], None))
  | ref :: rest =>
      if String.eqb (xpv1.Kind ref) extv1.CompositeResourceDefinitionKind then
        let (xrd, err) := resolvers.Get_CompositeResourceDefinition c (xpv1.Name ref) in
        match err with
        | Some _ => ([fetchOf ref],
                     ([], errors.Wrap err "cannot get CompositeResourceDefinition"))
        | None =>
            let (i, err) := GetCompositeResourceDefinition xrd in
            match err with
            | Some _ => ([fetchOf ref],
                         ([], errors.Wrap err "cannot model composite resource definition"))
            | None =>
                let '(fs, (ms, err')) := modelRefs c rest in
                (fetchOf ref :: fs, (model.IsCompositeResourceDefinition i :: ms, err'))
            end
        end
      else if String.eqb (xpv1.Kind ref) extv1.CompositionKind then
        let (cmp, err) := resolvers.Get_Composition c (xpv1.Name ref) in
        match err with
        | Some _ => ([fetchOf ref], ([], errors.Wrap err "cannot get Composition"))
        | None =>
            let (i, err) := GetComposition cmp in
            match err with
            | Some _ => ([fetchOf ref], ([], errors.Wrap err "cannot model composition"))
            | None =>
                let '(fs, (ms, err')) := modelRefs c rest in
                (fetchOf ref :: fs, (model.IsComposition i :: ms, err'))
            end
        end
      else modelRefs c rest
  end.

Definition objectsOf (c : resolvers.Client) (limit : option Z)
    (refs : list xpv1.TypedReference) (out : model.KubernetesResourceConnection)
    (fetched : list resolvers.fetch)
  : list resolvers.fetch * (option model.KubernetesResourceConnection * option errors.error) :=
  let counted := filter inGroup refs in
  let '(fs, (ms, err)) := modelRefs c (page limit (model.KubernetesResource_Count out) counted) in
  ((fetched ++ fs)%list,
   match err with
   | Some _ => (None, err)
   | None =>
       (Some (model.mkKubernetesResourceConnection
                (model.KubernetesResource_Items out ++ ms)
                (model.KubernetesResource_Count out + Z.of_nat (List.length counted))),
        None)
   end).

(** ** The classifier as an ordered table of rules *)

Inductive Shape : Type :=
| ManagedResourceShape | ProviderConfigShape | CompositeResourceShape | ProviderShape
| ProviderRevisionShape | ConfigurationShape | ConfigurationRevisionShape
| CompositeResourceDefinitionShape | CompositionShape | GenericResourceShape.

Definition shapeOf (r : model.KubernetesResource) : Shape :=
  match r with
  | model.IsManagedResource _ => ManagedResourceShape
  | model.IsProviderConfig _ => ProviderConfigShape
  | model.IsCompositeResource _ => CompositeResourceShape
  | model.IsProvider _ => ProviderShape
  | model.IsProviderRevision _ => ProviderRevisionShape
  | model.IsConfiguration _ => ConfigurationShape
  | model.IsConfigurationRevision _ => ConfigurationRevisionShape
  | model.IsCompositeResourceDefinition _ => CompositeResourceDefinitionShape
  | model.IsComposition _ => CompositionShape
  | model.IsGenericResource _ => GenericResourceShape
  end.

Definition hasKind (gvk : schema.GroupVersionKind) (u : kunstructured.Unstructured) : bool :=
  schema.GroupVersionKind_eqb (kunstructured.GroupVersionKind u) gvk.

(** The group, version and kind of the object are exactly those of one of
    the five package and extension kinds. *)
Definition knownPackageKind (u : kunstructured.Unstructured) : bool :=
  hasKind pkgv1.ProviderGroupVersionKind u
  || hasKind pkgv1.ProviderRevisionGroupVersionKind u
  || hasKind pkgv1.ConfigurationGroupVersionKind u
  || hasKind pkgv1.ConfigurationRevisionGroupVersionKind u
  || hasKind extv1.CompositeResourceDefinitionGroupVersionKind u.

Definition Constructor : Type :=
  kunstructured.Unstructured -> option model.KubernetesResource * option errors.error.

(** A constructor that models the untyped object directly. *)
Definition modelled {T : Type} (get : kunstructured.Unstructured -> T * option errors.error)
    (inj : T -> model.KubernetesResource) (msg : string) : Constructor :=
  fun u => (Some (inj (fst (get u))), errors.Wrap (snd (get u)) msg).

(** A constructor that converts the object to a typed shape first; a failed
    conversion is its error. *)
Definition converted {T R : Type} `{runtime.Object T} (get : T -> R * option errors.error)
    (inj : R -> model.KubernetesResource) (msgConvert msgModel : string) : Constructor :=
  fun u =>
    match snd (model.convert u (runtime.fresh (T := T))) with
    | Some e => (None, Some (errors.withMessage e msgConvert))
    | None =>
        let typed := fst (model.convert u (runtime.fresh (T := T))) in
        (Some (inj (fst (get typed))), errors.Wrap (snd (get typed)) msgModel)
    end.

(** The rules in their order: managed, provider config, composite, then the
    exact matches of the package kinds. *)
Definition rules : list ((kunstructured.Unstructured -> bool) * Constructor) :=
  [ (ProbablyManaged,
     modelled GetManagedResource model.IsManagedResource "cannot model managed resource");
    (ProbablyProviderConfig,
     modelled GetProviderConfig model.IsProviderConfig "cannot model provider config");
    (ProbablyComposite,
     modelled model.GetCompositeResource model.IsCompositeResource
       "cannot model composite resource");
    (hasKind pkgv1.ProviderGroupVersionKind,
     converted GetProvider model.IsProvider "cannot convert provider" "cannot model provider");
    (hasKind pkgv1.ProviderRevisionGroupVersionKind,
     converted GetProviderRevision model.IsProviderRevision
       "cannot convert provider revision" "cannot model provider revision");
    (hasKind pkgv1.ConfigurationGroupVersionKind,
     converted GetConfiguration model.IsConfiguration
       "cannot convert configuration" "cannot model configuration");
    (hasKind pkgv1.ConfigurationRevisionGroupVersionKind,
     converted GetConfigurationRevision model.IsConfigurationRevision
       "cannot convert configuration revision" "cannot model configuration revision");
    (hasKind extv1.CompositeResourceDefinitionGroupVersionKind,
     converted GetCompositeResourceDefinition model.IsCompositeResourceDefinition
       "cannot convert composite resource definition"
       "cannot model composite resource definition") ].

(** First match wins; the default applies when no rule accepts. *)
Fixpoint firstMatch (rs : list ((kunstructured.Unstructured -> bool) * Constructor))
    (default : Constructor) (u : kunstructured.Unstructured)
  : option model.KubernetesResource * option errors.error :=
  match rs with
  | [] => default u
  | (accepts, construct) :: rest =>
      if accepts u then construct u else firstMatch rest default u
  end.

Definition Classify : Constructor :=
  firstMatch rules
    (modelled model.GetGenericResource model.IsGenericResource "cannot model generic resource").

(** The error of the structural conversion into the typed shape that the
    kind of the object names; [None] when that conversion succeeds or when
    the kind is not a package kind. *)
Definition conversionError (u : kunstructured.Unstructured) : option errors.error :=
  if hasKind pkgv1.ProviderGroupVersionKind u then
    snd (model.convert u (runtime.fresh (T := pkgv1_Provider)))
  else if hasKind pkgv1.ProviderRevisionGroupVersionKind u then
    snd (model.convert u (runtime.fresh (T := pkgv1_ProviderRevision)))
  else if hasKind pkgv1.ConfigurationGroupVersionKind u then
    snd (model.convert u (runtime.fresh (T := pkgv1_Configuration)))
  else if hasKind pkgv1.ConfigurationRevisionGroupVersionKind u then
    snd (model.convert u (runtime.fresh (T := pkgv1.ConfigurationRevision)))
  else if hasKind extv1.CompositeResourceDefinitionGroupVersionKind u then
    snd (model.convert u (runtime.fresh (T := extv1_CompositeResourceDefinition)))
  else None.

(** The identity that a record modelled from [u] is to carry. *)
Definition referenceOf (u : kunstructured.Unstructured) : model.ReferenceID :=
  model.mkReferenceID (kunstructured.GetAPIVersion u) (kunstructured.GetKind u)
    (kunstructured.GetNamespace u) (kunstructured.GetName u).

End Specification.

(** * A concrete set of collaborators

    One implementation of the collaborators, and a few objects, on which the
    properties are instantiated.  The theorems hold for every
    implementation. *)

Module example.

Import kunstructured.

(** A typed package shape: its kind and the field [spec.package]. *)
Definition Typed : Type := (schema.GroupVersionKind * string)%type.

(** The structural conversion: [spec.package] is a string when present. *)
Definition Typed_FromUnstructured (obj : list (string * value)) (to : Typed)
  : Typed * option errors.error :=
  match NestedField (VMap obj) ["spec"; "package"] with
  | None => (to, None)
  | Some (VString s) => ((fst to, s), None)
  | Some _ => (to, Some (errors.opaque "cannot unmarshal spec.package into a string"))
  end.

Definition Typed_Object : runtime.Object Typed :=
  {| runtime.fresh := (schema.mkGroupVersionKind EmptyString EmptyString EmptyString, EmptyString);
     runtime.FromUnstructured := Typed_FromUnstructured;
     runtime.SetGroupVersionKind := fun gvk to => (gvk, snd to) |}.

Definition Revision_Object : runtime.Object pkgv1.ConfigurationRevision :=
  {| runtime.fresh := pkgv1.mkConfigurationRevision EmptyString [] EmptyString;
     runtime.FromUnstructured := fun obj _ =>
       (pkgv1.mkConfigurationRevision (getNestedString obj ["metadata"; "name"]) []
          (getNestedString obj ["spec"; "desiredState"]), None);
     runtime.SetGroupVersionKind := fun _ to => to |}.

(** Modelled from the spec: [ProbablyManaged] of internal/unstructured is not
    among the source files.  It "inspects the object's shape for attributes
    conventionally present on managed resources (e.g. a provider-config
    reference field)": here, a string at [spec.providerConfigRef.name]. *)
Definition hasProviderConfigRef (u : Unstructured) : bool :=
  match NestedField (VMap (Object u)) ["spec"; "providerConfigRef"; "name"] with
  | Some (VString _) => true
  | _ => false
  end.

(** Modelled from the spec: [ProbablyProviderConfig] of internal/unstructured
    is not among the source files; it is "similarly shape-based".  Here, the
    kind of the object is ProviderConfig. *)
Definition isProviderConfigKind (u : Unstructured) : bool :=
  String.eqb (GetKind u) "ProviderConfig".

(** Modelled from the spec: [ProbablyComposite] of internal/unstructured is
    not among the source files; it is "shape-based".  Here, a string at
    [spec.compositionRef.name]. *)
Definition hasCompositionRef (u : Unstructured) : bool :=
  match NestedField (VMap (Object u)) ["spec"; "compositionRef"; "name"] with
  | Some (VString _) => true
  | _ => false
  end.

(** Modelling a revision fails when it has no name. *)
Definition modelRevision (cr : pkgv1.ConfigurationRevision)
  : string * option errors.error :=
  if String.eqb (pkgv1.Name cr) EmptyString then (EmptyString, Some (errors.opaque "revision without a name"))
  else (pkgv1.Name cr, None).

Definition externals : Externals :=
  {| pkgv1_Provider := Typed;
     pkgv1_ProviderRevision := Typed;
     pkgv1_Configuration := Typed;
     extv1_CompositeResourceDefinition := Typed;
     extv1_Composition := Typed;
     Provider_Object := Typed_Object;
     ProviderRevision_Object := Typed_Object;
     Configuration_Object := Typed_Object;
     ConfigurationRevision_Object := Revision_Object;
     CompositeResourceDefinition_Object := Typed_Object;
     ObjectMeta := string;
     ManagedResource := string;
     ProviderConfig := string;
     Provider := string;
     ProviderRevision := string;
     Configuration := string;
     ConfigurationRevision := string;
     CompositeResourceDefinition := string;
     Composition := string;
     Configuration_Metadata_UID := fun uid => uid;
     ProbablyManaged := hasProviderConfigRef;
     ProbablyProviderConfig := isProviderConfigKind;
     ProbablyComposite := hasCompositionRef;
     GetObjectMeta := GetName;
     GetManagedResource := fun u => (GetName u, None);
     GetProviderConfig := fun u => (GetName u, None);
     GetProvider := fun p => (snd p, None);
     GetProviderRevision := fun p => (snd p, None);
     GetConfiguration := fun p => (snd p, None);
     GetConfigurationRevision := modelRevision;
     GetCompositeResourceDefinition := fun x => (snd x, None);
     GetComposition := fun x => (snd x, None);
     json_Marshal := fun u => ("{}", None);
     Time := Z;
     ObjectReference := string;
     SecretReference := string;
     GetCompositionSelector := fun _ => None;
     GetCompositionReference := fun _ => None;
     GetClaimReference := fun _ => None;
     GetResourceReferences := fun _ => None;
     GetWriteConnectionSecretToReference := fun _ => None;
     GetConditions_of := fun _ => None;
     GetConnectionDetailsLastPublishedTime_of := fun _ => None;
     Context_ := option string;
     token_FromContext := fun ctx =>
       match ctx with
       | Some t => (t, true)
       | None => (EmptyString, false)
       end |}.

(** A Provider that also has a provider-config reference, and whose
    [spec.package] is not a string. *)
Definition managedProvider : Unstructured :=
  mkUnstructured
    [ ("apiVersion", VString "pkg.crossplane.io/v1");
      ("kind", VString "Provider");
      ("metadata", VMap [("name", VString "provider-aws")]);
      ("spec", VMap [ ("providerConfigRef", VMap [("name", VString "default")]);
                      ("package", VNumber 42) ]) ].

(** A Provider whose [spec.package] is not a string. *)
Definition malformedProvider : Unstructured :=
  mkUnstructured
    [ ("apiVersion", VString "pkg.crossplane.io/v1");
      ("kind", VString "Provider");
      ("metadata", VMap [("name", VString "provider-aws")]);
      ("spec", VMap [("package", VNumber 42)]) ].

(** A composite resource. *)
Definition database : Unstructured :=
  mkUnstructured
    [ ("apiVersion", VString "example.org/v1");
      ("kind", VString "XDatabase");
      ("metadata", VMap [("name", VString "my-db")]);
      ("spec", VMap [("compositionRef", VMap [("name", VString "small")])]) ].

Definition owner (uid : string) : metav1.OwnerReference :=
  metav1.mkOwnerReference "pkg.crossplane.io/v1" "Configuration" "platform" uid (Some true).

Definition revision (name uid state : string) : pkgv1.ConfigurationRevision :=
  pkgv1.mkConfigurationRevision name [owner uid] state.

(** Five revisions: three controlled by the configuration of UID P, two by
    another. *)
Definition revisions : list pkgv1.ConfigurationRevision :=
  [ revision "a" "P" "Active"; revision "b" "Q" "Active"; revision "c" "P" "Inactive";
    revision "d" "Q" "Inactive"; revision "e" "P" "Inactive" ].

(** The second revision controlled by P has no name. *)
Definition revisions_with_nameless : list pkgv1.ConfigurationRevision :=
  [ revision "a" "P" "Active"; revision "b" "Q" "Active"; revision EmptyString "P" "Inactive";
    revision "e" "P" "Inactive" ].

Definition client (rs : list pkgv1.ConfigurationRevision) : @resolvers.Client externals :=
  resolvers.mkClient (E := externals) (rs, None)
    (fun name => ((extv1.CompositeResourceDefinitionGroupVersionKind, name), None))
    (fun name => ((schema.mkGroupVersionKind extv1.Group extv1.Version extv1.CompositionKind,
                   name), None)).

Definition cache (rs : list pkgv1.ConfigurationRevision) : @resolvers.ClientCache externals :=
  resolvers.mkClientCache (E := externals) (fun _ => (client rs, None)).

(** The object references of a revision: a definition, a reference of a kind
    that the group does not have, and a reference of another group. *)
Definition objectRefs : list xpv1.TypedReference :=
  [ xpv1.mkTypedReference "apiextensions.crossplane.io/v1" "CompositeResourceDefinition" "xdbs";
    xpv1.mkTypedReference "apiextensions.crossplane.io/v1" "Function" "f";
    xpv1.mkTypedReference "apps/v1" "Deployment" "d" ].

End example.

(** * Specification, continued

    The notions that the further properties are stated with. *)

(** No field of the reference contains the separator. *)
Definition separatorFree (ref : model.ReferenceID) : bool :=
  negb (strings.Contains (model.APIVersion ref) model.sep
        || strings.Contains (model.Kind ref) model.sep
        || strings.Contains (model.Namespace ref) model.sep
        || strings.Contains (model.Name ref) model.sep).

Definition backslash : ascii := "092"%char.

Section Specification_continued.
Context `{E : Externals} `{S : Schemas} `{K : @Kubernetes E S}.

Definition versionOf (x : kextv1.CustomResourceDefinitionVersion)
  : model.CustomResourceDefinitionVersion :=
  model.mkCustomResourceDefinitionVersion (kextv1.Version_Name x) (kextv1.Served x)
    match kextv1.Schema x with
    | Some s =>
        match kextv1.OpenAPIV3Schema s with
        | Some props =>
            match snd (json_Marshal_JSONSchemaProps props) with
            | None =>
                Some (model.mkCustomResourceValidation
                        (Some (fst (json_Marshal_JSONSchemaProps props))))
            | Some _ => None
            end
        | None => None
        end
    | None => None
    end.

Definition conditionOf (c : kextv1.CustomResourceDefinitionCondition) : model.Condition :=
  model.mkCondition (kextv1.Type_ c) (kextv1.Status c) (kextv1.LastTransitionTime c)
    (kextv1.Reason c) (Some (kextv1.Message c)).

Definition fetchFails (c : resolvers.Client) (ref : xpv1.TypedReference) : bool :=
  if String.eqb (xpv1.Kind ref) extv1.CompositeResourceDefinitionKind then
    match snd (resolvers.Get_CompositeResourceDefinition c (xpv1.Name ref)) with
    | Some _ => true
    | None =>
        match snd (GetCompositeResourceDefinition
                     (fst (resolvers.Get_CompositeResourceDefinition c (xpv1.Name ref)))) with
        | Some _ => true
        | None => false
        end
    end
  else if String.eqb (xpv1.Kind ref) extv1.CompositionKind then
    match snd (resolvers.Get_Composition c (xpv1.Name ref)) with
    | Some _ => true
    | None =>
        match snd (GetComposition (fst (resolvers.Get_Composition c (xpv1.Name ref)))) with
        | Some _ => true
        | None => false
        end
    end
  else false.

End Specification_continued.

(** ** Further collaborators and objects for the instances *)

Module example_more.

(** An OpenAPI schema is its text; the empty one cannot be marshalled. *)
Definition schemas : Schemas :=
  {| JSONSchemaProps := string;
     json_Marshal_JSONSchemaProps := fun props =>
       if String.eqb props EmptyString
       then (EmptyString, Some (errors.opaque "unsupported value"))
       else (props, None) |}.

Definition kubernetes : @Kubernetes example.externals schemas :=
  {| Time_zero := 0 : @Time example.externals;
     GetObjectMeta_Secret := corev1.Name : corev1.Secret -> @ObjectMeta example.externals;
     GetObjectMeta_CustomResourceDefinition :=
       (fun crd => kextv1.Name crd)
       : @kextv1.CustomResourceDefinition example.externals schemas
         -> @ObjectMeta example.externals;
     json_Marshal_Secret := fun s => (corev1.Name s, None);
     json_Marshal_CustomResourceDefinition := fun crd => (kextv1.Name crd, None) |}.

Definition secret : corev1.Secret := corev1.mkSecret "v1" "Secret" "default" "db-conn".

Definition crd : @kextv1.CustomResourceDefinition example.externals schemas :=
  kextv1.mkCustomResourceDefinition (E := example.externals) (S := schemas)
    "apiextensions.k8s.io/v1" "CustomResourceDefinition" "ignored" "xdbs.example.org"
    "example.org"
    (kextv1.mkCustomResourceDefinitionNames "xdbs" "xdb" None "XDatabase" "XDatabaseList" None)
    None None.

(** An object that no rule of the classifier accepts. *)
Definition configMap : kunstructured.Unstructured :=
  kunstructured.mkUnstructured
    [ ("apiVersion", kunstructured.VString "v1");
      ("kind", kunstructured.VString "ConfigMap");
      ("metadata", kunstructured.VMap [ ("namespace", kunstructured.VString "default");
                                        ("name", kunstructured.VString "settings") ]) ]%list.

(** A Provider whose [spec.package] is a string. *)
Definition provider : kunstructured.Unstructured :=
  kunstructured.mkUnstructured
    [ ("apiVersion", kunstructured.VString "pkg.crossplane.io/v1");
      ("kind", kunstructured.VString "Provider");
      ("metadata", kunstructured.VMap [("name", kunstructured.VString "provider-aws")]);
      ("spec", kunstructured.VMap [("package", kunstructured.VString "provider-aws:v1")]) ]%list.

(** A client that does not find the definition named missing. *)
Definition client : @resolvers.Client example.externals :=
  resolvers.mkClient (E := example.externals) ([]%list, None)
    (fun name =>
       if String.eqb name "missing"
       then (@runtime.fresh _ example.Typed_Object, Some (errors.opaque "not found"))
       else ((extv1.CompositeResourceDefinitionGroupVersionKind, name), None))
    (fun name =>
       ((schema.mkGroupVersionKind extv1.Group extv1.Version extv1.CompositionKind, name),
        None)).

Definition cache : @resolvers.ClientCache example.externals :=
  resolvers.mkClientCache (E := example.externals) (fun _ => (client, None)).

Definition objectRefs : list xpv1.TypedReference :=
  [ xpv1.mkTypedReference "apiextensions.crossplane.io/v1" "Composition" "small";
    xpv1.mkTypedReference "apiextensions.crossplane.io/v1" "CompositeResourceDefinition"
      "missing";
    xpv1.mkTypedReference "apiextensions.crossplane.io/v1" "CompositeResourceDefinition"
      "xdbs" ]%list.

End example_more.

(** * Properties

    ** The identity codec *)

(** *** Bytes and 6-bit groups *)

Lemma Z_of_byte_range c : 0 <= base64.Z_of_byte c < 256.
Proof.
  unfold base64.Z_of_byte.
  pose proof (N_ascii_bounded c). lia.
Qed.

Lemma byte_of_Z_of_byte c : base64.byte_of_Z (base64.Z_of_byte c) = c.
Proof.
  unfold base64.byte_of_Z.
  pose proof (Z_of_byte_range c) as R.
  change 255 with (Z.ones 8). rewrite Z.land_ones by lia.
  rewrite Z.mod_small by (change (2 ^ 8) with 256; lia).
  unfold base64.Z_of_byte. rewrite N2Z.id. apply ascii_N_embedding.
Qed.

Lemma testbit_high b k n : 0 <= b < 2 ^ k -> 0 <= k <= n -> Z.testbit b n = false.
Proof.
  intros Hb Hk. rewrite <- (Z.mod_small b (2 ^ k)) by lia.
  apply Z.mod_pow2_bits_high. lia.
Qed.

Lemma lor_shiftl_add a b k : 0 <= k -> 0 <= b < 2 ^ k -> Z.lor (Z.shiftl a k) b = a * 2 ^ k + b.
Proof.
  intros Hk Hb.
  assert (D : Z.land (Z.shiftl a k) b = 0).
  { apply Z.bits_inj'; intros n Hn. rewrite Z.land_spec, Z.bits_0.
    destruct (Z.ltb_spec n k).
    - rewrite Z.shiftl_spec_low by lia. reflexivity.
    - rewrite (testbit_high b k n) by lia. apply andb_false_r. }
  rewrite <- Z.shiftl_mul_pow2 by lia.
  rewrite <- Z.lxor_lor by exact D. symmetry. apply Z.add_nocarry_lxor. exact D.
Qed.


Lemma lor_add_aligned x b k : 0 <= k -> x mod 2 ^ k = 0 -> 0 <= b < 2 ^ k -> Z.lor x b = x + b.
Proof.
  intros Hk Hx Hb.
  assert (P : 0 < 2 ^ k) by (apply Z.pow_pos_nonneg; lia).
  assert (X : x = x / 2 ^ k * 2 ^ k).
  { pose proof (Z.div_mod x (2 ^ k)). lia. }
  rewrite X at 1. rewrite <- Z.shiftl_mul_pow2 by lia. rewrite lor_shiftl_add by lia. lia.
Qed.

Ltac arith := cbn -[Z.div Z.modulo Z.mul Z.add] in *; Z.div_mod_to_equations; lia.

Lemma sextets_regroup v :
  0 <= v < 2 ^ 24 ->
  let '(s0, s1, s2, s3) := base64.sextets v in
  Z.lor (Z.lor (Z.lor (Z.shiftl s0 18) (Z.shiftl s1 12)) (Z.shiftl s2 6)) s3 = v.
Proof.
  intros Hv. unfold base64.sextets.
  change 63 with (Z.ones 6). rewrite !Z.land_ones by lia.
  rewrite !Z.shiftr_div_pow2, !Z.shiftl_mul_pow2 by lia.
  set (s0 := (v / 2 ^ 18) mod 2 ^ 6). set (s1 := (v / 2 ^ 12) mod 2 ^ 6).
  set (s2 := (v / 2 ^ 6) mod 2 ^ 6). set (s3 := v mod 2 ^ 6).
  assert (R0 : 0 <= s0 < 64) by (subst s0; arith).
  assert (R1 : 0 <= s1 < 64) by (subst s1; arith).
  assert (R2 : 0 <= s2 < 64) by (subst s2; arith).
  assert (R3 : 0 <= s3 < 64) by (subst s3; arith).
  rewrite (lor_add_aligned (s0 * 2 ^ 18) (s1 * 2 ^ 12) 18) by (try lia; arith).
  rewrite (lor_add_aligned (s0 * 2 ^ 18 + s1 * 2 ^ 12) (s2 * 2 ^ 6) 12) by (try lia; arith).
  rewrite (lor_add_aligned _ s3 6) by (try lia; arith).
  subst s0 s1 s2 s3.
  arith.
Qed.

Lemma sextets_range v :
  0 <= v ->
  let '(s0, s1, s2, s3) := base64.sextets v in
  0 <= s0 < 64 /\ 0 <= s1 < 64 /\ 0 <= s2 < 64 /\ 0 <= s3 < 64.
Proof.
  intros Hv. unfold base64.sextets.
  change 63 with (Z.ones 6). rewrite !Z.land_ones by lia.
  rewrite !Z.shiftr_div_pow2 by lia. repeat split; arith.
Qed.

Lemma decodeMap_encode i : 0 <= i < 64 -> base64.decodeMap (base64.encode i) = i.
Proof.
  intros Hi.
  assert (A : forallb (fun n => Z.eqb (base64.decodeMap (base64.encode (Z.of_nat n)))
                                  (Z.of_nat n)) (seq 0 64) = true)
    by (vm_compute; reflexivity).
  rewrite forallb_forall in A.
  specialize (A (Z.to_nat i)). cbv beta in A.
  rewrite Z2Nat.id in A by lia. apply Z.eqb_eq, A, in_seq. lia.
Qed.

Lemma pack3 A B C :
  0 <= A < 256 -> 0 <= B < 256 -> 0 <= C < 256 ->
  Z.lor (Z.lor (Z.shiftl A 16) (Z.shiftl B 8)) C = A * 65536 + B * 256 + C.
Proof.
  intros HA HB HC. rewrite !Z.shiftl_mul_pow2 by lia.
  rewrite (lor_add_aligned (A * 2 ^ 16) (B * 2 ^ 8) 16) by (try lia; arith).
  rewrite (lor_add_aligned _ C 8) by (try lia; arith). lia.
Qed.

Lemma quantum_sextets_any dlen A B C :
  0 <= A < 256 -> 0 <= B < 256 -> 0 <= C < 256 ->
  let '(s0, s1, s2, s3) := base64.sextets (A * 65536 + B * 256 + C) in
  base64.quantum dlen s0 s1 s2 s3
  = match dlen with
    | 4%nat => String (base64.byte_of_Z A) (String (base64.byte_of_Z B)
                 (String (base64.byte_of_Z C) EmptyString))
    | 3%nat => String (base64.byte_of_Z A) (String (base64.byte_of_Z B) EmptyString)
    | 2%nat => String (base64.byte_of_Z A) EmptyString
    | _ => EmptyString
    end.
Proof.
  intros HA HB HC.
  pose proof (sextets_regroup (A * 65536 + B * 256 + C)) as G.
  destruct (base64.sextets _) as [[[s0 s1] s2] s3].
  unfold base64.quantum. rewrite G by (cbn; lia).
  unfold base64.byte_of_Z. change 255 with (Z.ones 8). rewrite !Z.land_ones by lia.
  rewrite !Z.shiftr_div_pow2 by lia.
  replace (((A * 65536 + B * 256 + C) / 2 ^ 16) mod 2 ^ 8) with (A mod 2 ^ 8) by arith.
  replace (((A * 65536 + B * 256 + C) / 2 ^ 8) mod 2 ^ 8) with (B mod 2 ^ 8) by arith.
  replace (((A * 65536 + B * 256 + C) / 2 ^ 0) mod 2 ^ 8) with (C mod 2 ^ 8) by arith.
  reflexivity.
Qed.

Lemma sextets_low_zero A B :
  0 <= A < 256 -> 0 <= B < 256 ->
  let '(_, _, s2, s3) := base64.sextets (A * 65536 + B * 256 + 0) in
  s3 = 0 /\ (B = 0 -> s2 = 0).
Proof.
  intros HA HB. unfold base64.sextets.
  change 63 with (Z.ones 6). rewrite !Z.land_ones by lia.
  rewrite !Z.shiftr_div_pow2 by lia. split; [|intros ->]; arith.
Qed.

Lemma Decode_push c rest si dbuf :
  base64.decodeMap c <> 255 -> (List.length dbuf < 3)%nat ->
  base64.Decode (String c rest) si dbuf
  = base64.Decode rest (si + 1) (dbuf ++ [base64.decodeMap c]).
Proof.
  intros Hc Hd. cbn [base64.Decode].
  destruct (Z.eqb_spec (base64.decodeMap c) 255) as [|_]; [contradiction|].
  cbn [negb]. destruct dbuf as [|d0 [|d1 [|d2 [|d3 dbuf]]]]; cbn in Hd; try lia; reflexivity.
Qed.

Lemma Decode_flush c rest si d0 d1 d2 :
  base64.decodeMap c <> 255 ->
  base64.Decode (String c rest) si [d0; d1; d2]
  = (base64.quantum 4 d0 d1 d2 (base64.decodeMap c) ++ fst (base64.Decode rest (si + 1) []),
     snd (base64.Decode rest (si + 1) []))%string.
Proof.
  intros Hc. cbn [base64.Decode].
  destruct (Z.eqb_spec (base64.decodeMap c) 255) as [|_]; [contradiction|].
  cbn [negb]. destruct (base64.Decode rest (si + 1) []); reflexivity.
Qed.

Lemma Decode_EncodeToString_fuel n : forall s si,
  (String.length s < n)%nat ->
  base64.Decode (base64.EncodeToString s) si [] = (s, None).
Proof.
  induction n as [|n IH]; intros s si Hn; [lia|].
  destruct s as [|a [|b [|c rest]]].
  - reflexivity.
  - (* one byte *)
    pose proof (Z_of_byte_range a) as Ha.
    cbn [base64.EncodeToString].
    rewrite Z.shiftl_mul_pow2 by lia.
    replace (base64.Z_of_byte a * 2 ^ 16) with (base64.Z_of_byte a * 65536 + 0 * 256 + 0) by lia.
    assert (Z0 : 0 <= 0 < 256) by lia.
    pose proof (quantum_sextets_any 2 (base64.Z_of_byte a) 0 0 Ha Z0 Z0) as Q.
    pose proof (sextets_low_zero (base64.Z_of_byte a) 0 Ha Z0) as L.
    assert (R := sextets_range (base64.Z_of_byte a * 65536 + 0 * 256 + 0) ltac:(lia)).
    destruct (base64.sextets _) as [[[s0 s1] s2] s3].
    destruct R as (R0 & R1 & R2 & R3).
    destruct L as [L3 L2]. rewrite L2 in Q by reflexivity. subst s3.
    rewrite Decode_push; [ | rewrite decodeMap_encode by lia; lia | cbn; lia ].
    rewrite Decode_push; [ | rewrite decodeMap_encode by lia; lia | cbn; lia ].
    rewrite !decodeMap_encode by lia. cbn [base64.Decode app].
    rewrite Q. rewrite byte_of_Z_of_byte. reflexivity.
  - (* two bytes *)
    pose proof (Z_of_byte_range a) as Ha. pose proof (Z_of_byte_range b) as Hb.
    cbn [base64.EncodeToString].
    rewrite <- (Z.lor_0_r (Z.lor _ _)). rewrite pack3 by lia.
    assert (Z0 : 0 <= 0 < 256) by lia.
    pose proof (quantum_sextets_any 3 (base64.Z_of_byte a) (base64.Z_of_byte b) 0 Ha Hb Z0) as Q.
    pose proof (sextets_low_zero (base64.Z_of_byte a) (base64.Z_of_byte b) Ha Hb) as L.
    assert (R := sextets_range (base64.Z_of_byte a * 65536 + base64.Z_of_byte b * 256 + 0)
                   ltac:(lia)).
    destruct (base64.sextets _) as [[[s0 s1] s2] s3].
    destruct R as (R0 & R1 & R2 & R3).
    destruct L as [L3 _]. subst s3.
    rewrite Decode_push; [ | rewrite decodeMap_encode by lia; lia | cbn; lia ].
    rewrite Decode_push; [ | rewrite decodeMap_encode by lia; lia | cbn; lia ].
    rewrite Decode_push; [ | rewrite decodeMap_encode by lia; lia | cbn; lia ].
    rewrite !decodeMap_encode by lia. cbn [base64.Decode app].
    rewrite Q. rewrite !byte_of_Z_of_byte. reflexivity.
  - (* a full quantum *)
    pose proof (Z_of_byte_range a) as Ha. pose proof (Z_of_byte_range b) as Hb.
    pose proof (Z_of_byte_range c) as Hc.
    cbn [base64.EncodeToString]. rewrite pack3 by lia.
    pose proof (quantum_sextets_any 4 _ _ _ Ha Hb Hc) as Q.
    assert (R := sextets_range
      (base64.Z_of_byte a * 65536 + base64.Z_of_byte b * 256 + base64.Z_of_byte c) ltac:(lia)).
    destruct (base64.sextets _) as [[[s0 s1] s2] s3].
    destruct R as (R0 & R1 & R2 & R3).
    rewrite Decode_push; [ | rewrite decodeMap_encode by lia; lia | cbn; lia ].
    rewrite Decode_push; [ | rewrite decodeMap_encode by lia; lia | cbn; lia ].
    rewrite Decode_push; [ | rewrite decodeMap_encode by lia; lia | cbn; lia ].
    cbn [app]. rewrite Decode_flush by (rewrite decodeMap_encode; lia).
    rewrite !decodeMap_encode by lia.
    rewrite IH by (cbn in Hn; lia).
    rewrite Q. rewrite !byte_of_Z_of_byte. reflexivity.
Qed.

Lemma DecodeString_EncodeToString s :
  base64.DecodeString (base64.EncodeToString s) = (s, None).
Proof.
  unfold base64.DecodeString.
  apply (Decode_EncodeToString_fuel (S (String.length s))). lia.
Qed.


(** *** Splitting and the decoder *)

Lemma Split_not_nil s sep : strings.Split s sep <> [].
Proof.
  induction s as [|c s IH]; cbn; [discriminate|].
  destruct (Ascii.eqb c sep); [discriminate|].
  destruct (strings.Split s sep); [contradiction|discriminate].
Qed.

Lemma Split_without_sep s sep : strings.Contains s sep = false -> strings.Split s sep = [s].
Proof.
  induction s as [|c s IH]; cbn; intros H; [reflexivity|].
  apply orb_false_elim in H as [Hc Hs]. rewrite Hc, (IH Hs). reflexivity.
Qed.

Lemma Split_app_sep a r sep :
  strings.Contains a sep = false ->
  strings.Split (a ++ String sep r) sep = a :: strings.Split r sep.
Proof.
  induction a as [|c a IH]; cbn; intros H.
  - rewrite Ascii.eqb_refl. reflexivity.
  - apply orb_false_elim in H as [Hc Hs]. rewrite Hc, (IH Hs). reflexivity.
Qed.

Lemma length_Split s sep :
  Z.of_nat (List.length (strings.Split s sep)) = strings.Count s sep + 1.
Proof.
  induction s as [|c s IH]; cbn [strings.Split strings.Count]; [reflexivity|].
  destruct (Ascii.eqb c sep).
  - cbn [List.length]. lia.
  - pose proof (Split_not_nil s sep).
    destruct (strings.Split s sep); [contradiction|]. cbn [List.length] in *. lia.
Qed.

Lemma char_class c :
  (isBase64Char c = true /\ base64.isNewline c = false /\ base64.decodeMap c <> 255)
  \/ (isBase64Char c = false /\ base64.decodeMap c = 255).
Proof.
  destruct c as [[] [] [] [] [] [] [] []]; vm_compute;
    first [ right; split; reflexivity | left; repeat split; discriminate ].
Qed.

Lemma Decode_succeeds_iff s : forall si dbuf,
  (List.length dbuf <= 3)%nat ->
  snd (base64.Decode s si dbuf) = None <->
  forallb isBase64Char (significant s) = true
  /\ ((List.length dbuf + List.length (significant s)) mod 4 <> 1)%nat.
Proof.
  induction s as [|c s IH]; intros si dbuf Hd.
  - cbn [significant forallb List.length].
    destruct dbuf as [|d0 [|d1 [|d2 [|d3 dbuf]]]]; cbn in *; try lia;
      (split; [intros H; split; [reflexivity | try discriminate; lia]
              | intros [_ H]; try reflexivity; try lia]).
    all: try discriminate. all: exfalso; apply H; reflexivity.
  - destruct (char_class c) as [(Hc & Hn & Hm) | (Hc & Hm)].
    + cbn [significant]. rewrite Hn. cbn [forallb List.length]. rewrite Hc.
      destruct dbuf as [|d0 [|d1 [|d2 [|d3 dbuf]]]]; cbn [List.length] in Hd; try lia.
      4: { rewrite Decode_flush by assumption. cbn [snd].
           rewrite (IH (si + 1) []) by (cbn; lia). cbn [List.length andb].
           replace (3 + S (List.length (significant s)))%nat
             with (List.length (significant s) + 1 * 4)%nat by lia.
           rewrite Nat.Div0.mod_add. reflexivity. }
      all: rewrite Decode_push by (assumption || (cbn; lia));
        rewrite IH by (cbn; lia); cbn [List.length app andb];
        match goal with
        | |- _ /\ (?x mod 4 <> 1)%nat <-> _ /\ (?y mod 4 <> 1)%nat =>
            replace x with y by lia; reflexivity
        end.
    + cbn [base64.Decode significant]. rewrite Hm. cbn [Z.eqb negb].
      change (Z.eqb 255 255) with true. cbn [negb].
      destruct (base64.isNewline c).
      * apply IH; assumption.
      * cbn [snd forallb]. rewrite Hc. cbn. split; [discriminate | intros [H _]; discriminate].
Qed.

Lemma DecodeString_valid s :
  snd (base64.DecodeString s) = None <-> valid_raw_base64 s = true.
Proof.
  unfold base64.DecodeString, valid_raw_base64.
  rewrite Decode_succeeds_iff by (cbn; lia). cbn [List.length Nat.add].
  rewrite andb_true_iff, negb_true_iff, Nat.eqb_neq. reflexivity.
Qed.

(** C1.  For every reference none of whose four fields contains the
    separator, parsing its token gives the reference back, with no error. *)
Theorem ParseReferenceID_String (ref : model.ReferenceID) :
  strings.Contains (model.APIVersion ref) model.sep = false ->
  strings.Contains (model.Kind ref) model.sep = false ->
  strings.Contains (model.Namespace ref) model.sep = false ->
  strings.Contains (model.Name ref) model.sep = false ->
  model.ParseReferenceID (model.ReferenceID_String ref) = (ref, None).
Proof.
  intros Ha Hk Hns Hn. destruct ref as [a k ns n]. cbn in *.
  unfold model.ParseReferenceID, model.ReferenceID_String. cbn [model.APIVersion model.Kind model.Namespace model.Name].
  rewrite DecodeString_EncodeToString.
  rewrite !Split_app_sep, Split_without_sep by assumption.
  reflexivity.
Qed.


(** C6.  A token either is not valid unpadded base64, and parsing fails with
    the decoder's error wrapped as "cannot decode id"; or it is valid and its
    payload has other than three separators, hence other than four parts,
    and parsing fails with "malformed id"; or it is valid, its payload has
    exactly three separators, and parsing succeeds with the four parts.
    [ParseReferenceID] is a total function: one of the three always
    happens. *)
Theorem ParseReferenceID_outcomes (id : string) :
  (valid_raw_base64 id = false
   /\ exists e, snd (base64.DecodeString id) = Some e
        /\ model.ParseReferenceID id
           = (model.ReferenceID_zero, Some (errors.withMessage e model.errDecode)))
  \/ (valid_raw_base64 id = true
      /\ snd (base64.DecodeString id) = None
      /\ Z.eqb (strings.Count (fst (base64.DecodeString id)) model.sep) 3 = false
      /\ Nat.eqb (List.length (strings.Split (fst (base64.DecodeString id)) model.sep)) 4
         = false
      /\ model.ParseReferenceID id
         = (model.ReferenceID_zero, Some (errors.New model.errMalformed)))
  \/ (valid_raw_base64 id = true
      /\ snd (base64.DecodeString id) = None
      /\ Z.eqb (strings.Count (fst (base64.DecodeString id)) model.sep) 3 = true
      /\ exists a k ns n,
           strings.Split (fst (base64.DecodeString id)) model.sep = [a; k; ns; n]
           /\ model.ParseReferenceID id = (model.mkReferenceID a k ns n, None)).
Proof.
  unfold model.ParseReferenceID. pose proof (DecodeString_valid id) as V.
  destruct (base64.DecodeString id) as [b [e|]]; cbn [fst snd] in *.
  - left. split.
    + destruct (valid_raw_base64 id); [|reflexivity].
      destruct V as [_ V]. discriminate (V eq_refl).
    + exists e. split; reflexivity.
  - right. assert (Hv : valid_raw_base64 id = true) by (apply V; reflexivity).
    pose proof (length_Split b model.sep) as L.
    destruct (Z.eqb_spec (strings.Count b model.sep) 3) as [C|C].
    + right. repeat split; try assumption.
      destruct (strings.Split b model.sep) as [|a [|k [|ns [|n [|x parts]]]]];
        cbn [List.length] in L; try lia.
      exists a, k, ns, n. split; reflexivity.
    + left. repeat split; try assumption.
      * apply Nat.eqb_neq. lia.
      * destruct (Nat.eqb_spec (List.length (strings.Split b model.sep)) 4) as [F|_];
          [lia | reflexivity].
Qed.

(** ** The connection of the revisions of a configuration *)

Local Open Scope list_scope.

Section Properties.
Context `{E : Externals}.

Lemma int_small z : - 2 ^ 63 <= z <= MaxInt -> int z = z.
Proof.
  unfold int, MaxInt. intros H. rewrite Z.mod_small; lia.
Qed.

Lemma page_nil {A} limit counted : @page A limit counted [] = [].
Proof. destruct limit; cbn; [apply firstn_nil | reflexivity]. Qed.

Lemma page_skip {A} l counted (x : A) xs :
  l < counted + 1 -> page (Some l) counted (x :: xs) = [] /\ page (Some l) (counted + 1) xs = [].
Proof.
  intros H. unfold page.
  replace (Z.to_nat (l - counted)) with 0%nat by lia.
  replace (Z.to_nat (l - (counted + 1))) with 0%nat by lia. split; reflexivity.
Qed.

Lemma page_take {A} limit counted (x : A) xs :
  match limit with Some l => counted + 1 <= l | None => True end ->
  page limit counted (x :: xs) = x :: page limit (counted + 1) xs.
Proof.
  destruct limit as [l|]; cbn; intros H; [|reflexivity].
  replace (Z.to_nat (l - counted)) with (S (Z.to_nat (l - (counted + 1)))) by lia.
  reflexivity.
Qed.

Lemma Revisions_range_excluded obj limit active cr rest out :
  survives obj active cr = false ->
  resolvers.Revisions_range obj limit active (cr :: rest) out
  = resolvers.Revisions_range obj limit active rest out.
Proof.
  unfold survives, controlledBy, inState. intros H. cbn [resolvers.Revisions_range].
  destruct (pkgv1.GetControllerOf cr) as [c|]; [|reflexivity].
  destruct (String.eqb (metav1.UID c) (Configuration_Metadata_UID obj)); [|reflexivity].
  cbn [negb andb] in *.
  destruct active as [[]|]; cbn [pointer.BoolPtrDerefOr andb]; try discriminate.
  rewrite H. reflexivity.
Qed.

Lemma Revisions_range_counted obj limit active cr rest out :
  survives obj active cr = true ->
  resolvers.Revisions_range obj limit active (cr :: rest) out
  = let out' := model.mkConfigurationRevisionConnection (model.Items out)
                  (int (model.Count out + 1)) in
    if match limit with Some l => Z.ltb l (model.Count out') | None => false end
    then resolvers.Revisions_range obj limit active rest out'
    else
      let (i, err) := GetConfigurationRevision cr in
      match err with
      | Some _ => (None, errors.Wrap err "cannot model configuration revision")
      | None =>
          resolvers.Revisions_range obj limit active rest
            (model.mkConfigurationRevisionConnection (model.Items out' ++ [i])
               (model.Count out'))
      end.
Proof.
  unfold survives, controlledBy, inState. intros H. cbn [resolvers.Revisions_range].
  destruct (pkgv1.GetControllerOf cr) as [c|]; [|discriminate].
  destruct (String.eqb (metav1.UID c) (Configuration_Metadata_UID obj)); [|discriminate].
  cbn [negb andb] in *.
  destruct active as [[]|]; cbn [pointer.BoolPtrDerefOr andb]; try reflexivity.
  rewrite H. reflexivity.
Qed.

Lemma Revisions_range_connectionOf obj limit active candidates : forall out,
  0 <= model.Count out ->
  model.Count out + Z.of_nat (List.length candidates) <= MaxInt ->
  resolvers.Revisions_range obj limit active candidates out
  = connectionOf obj limit active candidates out.
Proof.
  induction candidates as [|cr rest IH]; intros out H0 Hmax.
  - unfold connectionOf. cbn. rewrite page_nil. cbn.
    rewrite app_nil_r, Z.add_0_r. destruct out; reflexivity.
  - cbn [List.length] in Hmax.
    destruct (survives obj active cr) eqn:Sv.
    2: { rewrite Revisions_range_excluded, IH by (assumption || lia).
         unfold connectionOf, survivors. cbn [filter]. rewrite Sv. reflexivity. }
    rewrite Revisions_range_counted by assumption.
    unfold connectionOf at 1, survivors. cbn [filter]. rewrite Sv. fold (survivors obj active rest).
    cbv zeta. cbn [model.Count model.Items List.length].
    rewrite int_small by (unfold MaxInt in *; lia).
    assert (L : Z.of_nat (List.length (survivors obj active rest))
                <= Z.of_nat (List.length rest)).
    { apply Nat2Z.inj_le, filter_length_le. }
    assert (T : forall i,
      resolvers.Revisions_range obj limit active rest
        (model.mkConfigurationRevisionConnection (model.Items out ++ [i]) (model.Count out + 1))
      = let (ms, err) := modelAll (page limit (model.Count out + 1) (survivors obj active rest)) in
        match err with
        | Some _ => (None, errors.Wrap err "cannot model configuration revision")
        | None =>
            (Some (model.mkConfigurationRevisionConnection (model.Items out ++ i :: ms)
                     (model.Count out
                      + Z.of_nat (S (List.length (survivors obj active rest))))), None)
        end).
    { intros i. rewrite IH by (cbn [model.Count]; lia). unfold connectionOf. cbn [model.Count model.Items].
      destruct (modelAll _) as [ms [e|]]; [reflexivity|].
      rewrite <- app_assoc. cbn [app]. do 3 f_equal. lia. }
    destruct limit as [l|].
    + destruct (Z.ltb_spec l (model.Count out + 1)) as [Hlt|Hge].
      * rewrite IH by (cbn [model.Count]; lia). unfold connectionOf. cbn [model.Count model.Items].
        destruct (page_skip l (model.Count out) cr (survivors obj active rest) Hlt) as [-> ->].
        cbn [modelAll]. do 3 f_equal. lia.
      * rewrite page_take by assumption. cbn [modelAll].
        destruct (GetConfigurationRevision cr) as [i [e|]]; [reflexivity|].
        rewrite T. destruct (modelAll _) as [ms [e|]]; reflexivity.
    + rewrite page_take by exact I. cbn [modelAll].
      destruct (GetConfigurationRevision cr) as [i [e|]]; [reflexivity|].
      rewrite T. destruct (modelAll _) as [ms [e|]]; reflexivity.
Qed.


Lemma modelAll_length l : forall ms,
  modelAll l = (ms, None) -> List.length ms = List.length l.
Proof.
  induction l as [|cr rest IH]; intros ms; cbn [modelAll].
  - intros [= <-]. reflexivity.
  - destruct (GetConfigurationRevision cr) as [i [e|]]; [discriminate|].
    destruct (modelAll rest) as [ms' err]. intros [= <- ->].
    cbn [List.length]. f_equal. apply IH. reflexivity.
Qed.

Lemma modelAll_succeeds l :
  (forall cr, In cr l -> snd (GetConfigurationRevision cr) = None) ->
  snd (modelAll l) = None.
Proof.
  induction l as [|cr rest IH]; intros H; cbn [modelAll]; [reflexivity|].
  pose proof (H cr (or_introl eq_refl)) as Hcr.
  destruct (GetConfigurationRevision cr) as [i err]. cbn [snd] in Hcr. subst err.
  specialize (IH (fun x Hx => H x (or_intror Hx))).
  destruct (modelAll rest) as [ms err]. exact IH.
Qed.

Lemma modelAll_fails l cr :
  In cr l -> snd (GetConfigurationRevision cr) <> None -> snd (modelAll l) <> None.
Proof.
  induction l as [|x rest IH]; intros Hin Hcr; [destruct Hin|].
  cbn [modelAll]. destruct Hin as [->|Hin].
  - destruct (GetConfigurationRevision cr) as [i [e|]]; [discriminate|].
    exfalso. apply Hcr. reflexivity.
  - destruct (GetConfigurationRevision x) as [i [e|]]; [discriminate|].
    specialize (IH Hin Hcr). destruct (modelAll rest) as [ms err]. exact IH.
Qed.

Lemma Revisions_connectionOf r ctx obj limit active c candidates :
  resolvers.Get (resolvers.clients r) (fst (token_FromContext ctx)) = (c, None) ->
  resolvers.List c = (candidates, None) ->
  Z.of_nat (List.length candidates) <= MaxInt ->
  resolvers.Revisions r ctx obj limit active
  = connectionOf obj limit active candidates (model.mkConfigurationRevisionConnection [] 0).
Proof.
  intros Hget Hlist Hlen. unfold resolvers.Revisions.
  destruct (token_FromContext ctx) as [t ok]. cbn [fst] in Hget. rewrite Hget, Hlist.
  apply Revisions_range_connectionOf; cbn [model.Count]; lia.
Qed.

(** What a returned connection holds, and when one is returned. *)
Lemma Revisions_result r ctx obj limit active c candidates out err :
  resolvers.Get (resolvers.clients r) (fst (token_FromContext ctx)) = (c, None) ->
  resolvers.List c = (candidates, None) ->
  Z.of_nat (List.length candidates) <= MaxInt ->
  resolvers.Revisions r ctx obj limit active = (Some out, err) ->
  model.Count out = Z.of_nat (List.length (survivors obj active candidates))
  /\ modelAll (page limit 0 (survivors obj active candidates)) = (model.Items out, None).
Proof.
  intros Hget Hlist Hlen.
  rewrite (Revisions_connectionOf r ctx obj limit active c candidates Hget Hlist Hlen).
  unfold connectionOf. cbn [model.Count model.Items].
  destruct (modelAll _) as [ms [e|]]; [discriminate|].
  intros [= <- _]. cbn [model.Count model.Items app]. split; [lia | reflexivity].
Qed.

Lemma Revisions_returns r ctx obj limit active c candidates :
  resolvers.Get (resolvers.clients r) (fst (token_FromContext ctx)) = (c, None) ->
  resolvers.List c = (candidates, None) ->
  Z.of_nat (List.length candidates) <= MaxInt ->
  (forall cr, In cr (page limit 0 (survivors obj active candidates)) ->
              snd (GetConfigurationRevision cr) = None) ->
  exists out, resolvers.Revisions r ctx obj limit active = (Some out, None).
Proof.
  intros Hget Hlist Hlen Hok.
  rewrite (Revisions_connectionOf r ctx obj limit active c candidates Hget Hlist Hlen).
  unfold connectionOf. cbn [model.Count model.Items].
  apply modelAll_succeeds in Hok.
  destruct (modelAll _) as [ms err]. cbn [snd] in Hok. subst err. eexists. reflexivity.
Qed.

(** C2.  Whatever the limit, the count of the connection that [Revisions]
    returns is the number of candidates that are controlled by the parent
    and pass the state filter, and its items are the models of candidates
    among these only; [Revisions] does return a connection when the
    candidates of the page can be modelled. *)
Theorem Revisions_Count r ctx obj limit active c candidates :
  resolvers.Get (resolvers.clients r) (fst (token_FromContext ctx)) = (c, None) ->
  resolvers.List c = (candidates, None) ->
  Z.of_nat (List.length candidates) <= MaxInt ->
  (forall out err,
     resolvers.Revisions r ctx obj limit active = (Some out, err) ->
     model.Count out = Z.of_nat (List.length (survivors obj active candidates))
     /\ modelAll (page limit 0 (survivors obj active candidates)) = (model.Items out, None))
  /\ ((forall cr, In cr (page limit 0 (survivors obj active candidates)) ->
                  snd (GetConfigurationRevision cr) = None) ->
      exists out, resolvers.Revisions r ctx obj limit active = (Some out, None)).
Proof.
  intros Hget Hlist Hlen. split.
  - intros out err. apply (Revisions_result r ctx obj limit active c candidates); assumption.
  - apply (Revisions_returns r ctx obj limit active c candidates); assumption.
Qed.

(** C3.  With a limit that is not negative, the connection that [Revisions]
    returns has min(count, limit) items, the models of the first candidates
    that survive the filters, in the order of the list; without a limit it
    has count items, the models of all the survivors.  A connection is
    returned when the candidates of the page can be modelled. *)
Theorem Revisions_Items r ctx obj limit active c candidates :
  resolvers.Get (resolvers.clients r) (fst (token_FromContext ctx)) = (c, None) ->
  resolvers.List c = (candidates, None) ->
  Z.of_nat (List.length candidates) <= MaxInt ->
  (forall out err,
     resolvers.Revisions r ctx obj limit active = (Some out, err) ->
     match limit with
     | Some l =>
         0 <= l ->
         Z.of_nat (List.length (model.Items out)) = Z.min (model.Count out) l
         /\ modelAll (firstn (Z.to_nat l) (filter (survives obj active) candidates))
            = (model.Items out, None)
     | None =>
         Z.of_nat (List.length (model.Items out)) = model.Count out
         /\ modelAll (filter (survives obj active) candidates) = (model.Items out, None)
     end)
  /\ ((forall cr, In cr (page limit 0 (filter (survives obj active) candidates)) ->
                  snd (GetConfigurationRevision cr) = None) ->
      exists out, resolvers.Revisions r ctx obj limit active = (Some out, None)).
Proof.
  intros Hget Hlist Hlen. split.
  - intros out err HR.
    destruct (Revisions_result r ctx obj limit active c candidates out err
                Hget Hlist Hlen HR) as [Hcount Hitems].
    pose proof (modelAll_length _ _ Hitems) as Hl. unfold survivors in *.
    destruct limit as [l|]; cbn [page] in *.
    + intros Hl0. rewrite Z.sub_0_r in *. split; [|exact Hitems].
      rewrite Hl, length_firstn, Hcount. lia.
    + split; [|exact Hitems]. rewrite Hl, Hcount. reflexivity.
  - apply (Revisions_returns r ctx obj limit active c candidates); assumption.
Qed.

(** C4.  When the model of a candidate of the page fails, [Revisions]
    returns an error and no connection. *)
Theorem Revisions_fail_fast r ctx obj limit active c candidates cr :
  resolvers.Get (resolvers.clients r) (fst (token_FromContext ctx)) = (c, None) ->
  resolvers.List c = (candidates, None) ->
  Z.of_nat (List.length candidates) <= MaxInt ->
  In cr (page limit 0 (survivors obj active candidates)) ->
  snd (GetConfigurationRevision cr) <> None ->
  fst (resolvers.Revisions r ctx obj limit active) = None
  /\ exists e, snd (resolvers.Revisions r ctx obj limit active) = Some e.
Proof.
  intros Hget Hlist Hlen Hin Hcr.
  rewrite (Revisions_connectionOf r ctx obj limit active c candidates Hget Hlist Hlen).
  unfold connectionOf. cbn [model.Count].
  pose proof (modelAll_fails _ cr Hin Hcr) as F.
  destruct (modelAll _) as [ms [e|]]; cbn [snd] in F; [|contradiction].
  cbn. split; [reflexivity | eexists; reflexivity].
Qed.

(** C9.  With a negative limit [Revisions] returns no item, and the count is
    still the number of candidates that pass both filters. *)
Theorem Revisions_negative_limit r ctx obj l active c candidates :
  resolvers.Get (resolvers.clients r) (fst (token_FromContext ctx)) = (c, None) ->
  resolvers.List c = (candidates, None) ->
  Z.of_nat (List.length candidates) <= MaxInt ->
  l < 0 ->
  resolvers.Revisions r ctx obj (Some l) active
  = (Some (model.mkConfigurationRevisionConnection []
             (Z.of_nat (List.length (survivors obj active candidates)))), None).
Proof.
  intros Hget Hlist Hlen Hneg.
  rewrite (Revisions_connectionOf r ctx obj (Some l) active c candidates Hget Hlist Hlen).
  unfold connectionOf, page. cbn [model.Count model.Items].
  replace (Z.to_nat (l - 0)) with 0%nat by lia. reflexivity.
Qed.

(** ** The objects of a configuration revision *)

Lemma Objects_range_objectsOf c limit refs : forall out fetched,
  0 <= model.KubernetesResource_Count out ->
  model.KubernetesResource_Count out + Z.of_nat (List.length refs) <= MaxInt ->
  resolvers.Objects_range c limit refs out fetched = objectsOf c limit refs out fetched.
Proof.
  induction refs as [|ref rest IH]; intros out fetched H0 Hmax.
  - unfold objectsOf. cbn. rewrite page_nil. cbn.
    rewrite !app_nil_r, Z.add_0_r. destruct out; reflexivity.
  - cbn [List.length] in Hmax. cbn [resolvers.Objects_range].
    fold (inGroup ref). unfold objectsOf at 1. cbn [filter].
    destruct (inGroup ref) eqn:G; cbn [negb].
    2: { rewrite IH by lia. reflexivity. }
    cbn [model.KubernetesResource_Count model.KubernetesResource_Items List.length].
    rewrite int_small by (unfold MaxInt in *; lia).
    assert (L : Z.of_nat (List.length (filter inGroup rest)) <= Z.of_nat (List.length rest)).
    { apply Nat2Z.inj_le, filter_length_le. }
    assert (T : forall k fs,
      resolvers.Objects_range c limit rest
        (model.mkKubernetesResourceConnection (model.KubernetesResource_Items out ++ [k])
           (model.KubernetesResource_Count out + 1)) (fetched ++ [fs])
      = let '(fs', (ms, err)) :=
            modelRefs c (page limit (model.KubernetesResource_Count out + 1)
                           (filter inGroup rest)) in
        (fetched ++ fs :: fs',
         match err with
         | Some _ => (None, err)
         | None =>
             (Some (model.mkKubernetesResourceConnection
                      (model.KubernetesResource_Items out ++ k :: ms)
                      (model.KubernetesResource_Count out
                       + Z.of_nat (S (List.length (filter inGroup rest))))), None)
         end)).
    { intros k fs. rewrite IH by (cbn [model.KubernetesResource_Count]; lia).
      unfold objectsOf. cbn [model.KubernetesResource_Count model.KubernetesResource_Items].
      destruct (modelRefs _ _) as [fs' [ms [e|]]]; rewrite <- !app_assoc; cbn [app];
        [reflexivity|]. do 4 f_equal. lia. }
    assert (U :
      resolvers.Objects_range c limit rest
        (model.mkKubernetesResourceConnection (model.KubernetesResource_Items out)
           (model.KubernetesResource_Count out + 1)) fetched
      = let '(fs', (ms, err)) :=
            modelRefs c (page limit (model.KubernetesResource_Count out + 1)
                           (filter inGroup rest)) in
        (fetched ++ fs',
         match err with
         | Some _ => (None, err)
         | None =>
             (Some (model.mkKubernetesResourceConnection
                      (model.KubernetesResource_Items out ++ ms)
                      (model.KubernetesResource_Count out
                       + Z.of_nat (S (List.length (filter inGroup rest))))), None)
         end)).
    { rewrite IH by (cbn [model.KubernetesResource_Count]; lia).
      unfold objectsOf. cbn [model.KubernetesResource_Count model.KubernetesResource_Items].
      destruct (modelRefs _ _) as [fs' [ms [e|]]]; [reflexivity|]. do 4 f_equal. lia. }
    assert (P : match limit with
                | Some l => Z.ltb l (model.KubernetesResource_Count out + 1)
                | None => false
                end = false ->
                page limit (model.KubernetesResource_Count out) (ref :: filter inGroup rest)
                = ref :: page limit (model.KubernetesResource_Count out + 1)
                           (filter inGroup rest)).
    { intros H. apply page_take. destruct limit as [l|]; [|exact I].
      apply Z.ltb_ge in H. exact H. }
    destruct (match limit with Some l => _ | None => false end) eqn:Lim.
    + destruct limit as [l|]; [|discriminate]. apply Z.ltb_lt in Lim.
      rewrite U.
      destruct (page_skip l (model.KubernetesResource_Count out) ref (filter inGroup rest) Lim)
        as [-> ->].
      cbn [modelRefs]. rewrite !app_nil_r. reflexivity.
    + rewrite (P eq_refl). clear P. cbn [modelRefs]. unfold fetchOf.
      destruct (String.eqb (xpv1.Kind ref) extv1.CompositeResourceDefinitionKind).
      { destruct (resolvers.Get_CompositeResourceDefinition c (xpv1.Name ref)) as [xrd [e|]];
          [reflexivity|].
        destruct (GetCompositeResourceDefinition xrd) as [i [e|]]; [reflexivity|].
        rewrite T. destruct (modelRefs _ _) as [fs' [ms [e|]]]; reflexivity. }
      destruct (String.eqb (xpv1.Kind ref) extv1.CompositionKind).
      { destruct (resolvers.Get_Composition c (xpv1.Name ref)) as [cmp [e|]];
          [reflexivity|].
        destruct (GetComposition cmp) as [i [e|]]; [reflexivity|].
        rewrite T. destruct (modelRefs _ _) as [fs' [ms [e|]]]; reflexivity. }
      rewrite U. destruct (modelRefs _ _) as [fs' [ms [e|]]]; reflexivity.
Qed.

Lemma modelRefs_fetched c refs :
  forall f, In f (fst (modelRefs c refs)) ->
  exists ref, In ref refs /\ producesItem ref = true /\ f = fetchOf ref.
Proof.
  induction refs as [|ref rest IH]; intros f; cbn [modelRefs]; [intros []|].
  unfold producesItem.
  destruct (String.eqb (xpv1.Kind ref) extv1.CompositeResourceDefinitionKind) eqn:K1.
  { assert (Here : exists r, In r (ref :: rest) /\ producesItem r = true /\ fetchOf ref = fetchOf r).
    { exists ref. unfold producesItem. rewrite K1. repeat split. left; reflexivity. }
    destruct (resolvers.Get_CompositeResourceDefinition c (xpv1.Name ref)) as [xrd [e|]].
    { cbn. intros [<-|[]]. exact Here. }
    destruct (GetCompositeResourceDefinition xrd) as [i [e|]].
    { cbn. intros [<-|[]]. exact Here. }
    destruct (modelRefs c rest) as [fs [ms err]]. cbn [fst] in *. intros [<-|H]; [exact Here|].
    destruct (IH f H) as (r & Hin & Hp & Hf). exists r. split; [right; exact Hin|]. split; assumption. }
  destruct (String.eqb (xpv1.Kind ref) extv1.CompositionKind) eqn:K2.
  { assert (Here : exists r, In r (ref :: rest) /\ producesItem r = true /\ fetchOf ref = fetchOf r).
    { exists ref. unfold producesItem. rewrite K1, K2. repeat split. left; reflexivity. }
    destruct (resolvers.Get_Composition c (xpv1.Name ref)) as [cmp [e|]].
    { cbn. intros [<-|[]]. exact Here. }
    destruct (GetComposition cmp) as [i [e|]].
    { cbn. intros [<-|[]]. exact Here. }
    destruct (modelRefs c rest) as [fs [ms err]]. cbn [fst] in *. intros [<-|H]; [exact Here|].
    destruct (IH f H) as (r & Hin & Hp & Hf). exists r. split; [right; exact Hin|]. split; assumption. }
  intros H. destruct (IH f H) as (r & Hin & Hp & Hf). exists r. split; [right; exact Hin|].
  split; assumption.
Qed.

Lemma modelRefs_items c refs fs ms :
  modelRefs c refs = (fs, (ms, None)) ->
  List.length ms = List.length (filter producesItem refs).
Proof.
  revert fs ms. induction refs as [|ref rest IH]; intros fs ms; cbn [modelRefs filter].
  - intros [= <- <-]. reflexivity.
  - unfold producesItem at 1.
    destruct (String.eqb (xpv1.Kind ref) extv1.CompositeResourceDefinitionKind).
    { cbn [orb].
      destruct (resolvers.Get_CompositeResourceDefinition c (xpv1.Name ref)) as [xrd [e|]];
        [discriminate|].
      destruct (GetCompositeResourceDefinition xrd) as [i [e|]]; [discriminate|].
      destruct (modelRefs c rest) as [fs' [ms' err]]. intros [= <- <- ->].
      cbn [List.length]. f_equal. eapply IH. reflexivity. }
    destruct (String.eqb (xpv1.Kind ref) extv1.CompositionKind).
    { cbn [orb].
      destruct (resolvers.Get_Composition c (xpv1.Name ref)) as [cmp [e|]]; [discriminate|].
      destruct (GetComposition cmp) as [i [e|]]; [discriminate|].
      destruct (modelRefs c rest) as [fs' [ms' err]]. intros [= <- <- ->].
      cbn [List.length]. f_equal. eapply IH. reflexivity. }
    cbn [orb]. apply IH.
Qed.


Lemma Objects_objectsOf r ctx obj limit c :
  resolvers.Get (resolvers.status_clients r) (fst (token_FromContext ctx)) = (c, None) ->
  Z.of_nat (List.length (model.ObjectRefs obj)) <= MaxInt ->
  resolvers.Objects r ctx obj limit
  = objectsOf c limit (model.ObjectRefs obj) (model.mkKubernetesResourceConnection [] 0) [].
Proof.
  intros Hget Hlen. unfold resolvers.Objects.
  destruct (token_FromContext ctx) as [t ok]. cbn [fst] in Hget. rewrite Hget.
  apply Objects_range_objectsOf; cbn [model.KubernetesResource_Count]; lia.
Qed.

(** ** The classifier *)

Lemma GetKubernetesResource_Classify u : model.GetKubernetesResource u = Classify u.
Proof.
  unfold model.GetKubernetesResource, Classify, rules, firstMatch, modelled, converted, hasKind.
  repeat match goal with
  | |- (if ?b then _ else _) = (if ?b then _ else _) => destruct b
  | |- context [GetManagedResource ?x] => destruct (GetManagedResource x)
  | |- context [GetProviderConfig ?x] => destruct (GetProviderConfig x)
  | |- context [model.GetCompositeResource ?x] => destruct (model.GetCompositeResource x)
  | |- context [model.GetGenericResource ?x] => destruct (model.GetGenericResource x)
  | |- context [model.convert ?x ?y] =>
      destruct (model.convert x y) as [? [?|]]; cbn [fst snd errors.Wrap]
  | |- context [GetProvider ?x] => destruct (GetProvider x)
  | |- context [GetProviderRevision ?x] => destruct (GetProviderRevision x)
  | |- context [GetConfiguration ?x] => destruct (GetConfiguration x)
  | |- context [GetConfigurationRevision ?x] => destruct (GetConfigurationRevision x)
  | |- context [GetCompositeResourceDefinition ?x] =>
      destruct (GetCompositeResourceDefinition x)
  end; reflexivity.
Qed.

(** C5.  An object that the managed-resource heuristic accepts and whose
    kind is exactly one of the package kinds is modelled as a managed
    resource, by the earlier rule.  In general [GetKubernetesResource] is the
    first match of the ordered table [rules] (managed, provider config,
    composite, the exact package kinds), with the generic resource as the
    default. *)
Theorem GetKubernetesResource_dispatch_order :
  (forall u, ProbablyManaged u = true -> knownPackageKind u = true ->
     model.GetKubernetesResource u
     = (Some (model.IsManagedResource (fst (GetManagedResource u))),
        errors.Wrap (snd (GetManagedResource u)) "cannot model managed resource")
     /\ option_map shapeOf (fst (model.GetKubernetesResource u)) = Some ManagedResourceShape)
  /\ (forall u, model.GetKubernetesResource u = Classify u).
Proof.
  split; [|exact GetKubernetesResource_Classify].
  intros u M _. unfold model.GetKubernetesResource. rewrite M.
  destruct (GetManagedResource u); split; reflexivity.
Qed.

(** C8, as amended.  For an object whose kind is exactly one of the package
    kinds and whose conversion into the typed shape of that kind fails:
    [GetKubernetesResource] never returns a generic resource; and when none
    of the three shape heuristics accepts the object, it returns no resource
    and an error. *)
Theorem conversion_failure_is_an_error u :
  knownPackageKind u = true -> conversionError u <> None ->
  (forall g, fst (model.GetKubernetesResource u) <> Some (model.IsGenericResource g))
  /\ (ProbablyManaged u = false -> ProbablyProviderConfig u = false ->
      ProbablyComposite u = false ->
      fst (model.GetKubernetesResource u) = None
      /\ exists e, snd (model.GetKubernetesResource u) = Some e).
Proof.
  intros K C. rewrite GetKubernetesResource_Classify.
  unfold knownPackageKind, conversionError in *.
  unfold Classify, rules, firstMatch, modelled, converted.
  split.
  - intros g.
    repeat match goal with
    | |- context [if ?b then _ else _] => destruct b eqn:?
    | |- context [match snd ?x with _ => _ end] => destruct (snd x)
    end; cbn [fst]; discriminate.
  - intros -> -> ->.
    repeat match goal with
    | H : context [if ?b then _ else _] |- _ => destruct b eqn:?
    end; cbn [orb] in K; try discriminate;
    (destruct (snd (model.convert u _)) as [e|]; [|contradiction]);
    cbn [fst snd]; (split; [reflexivity | eexists; reflexivity]).
Qed.


End Properties.

Lemma page_In {A : Type} limit counted (l : list A) x : In x (page limit counted l) -> In x l.
Proof.
  destruct limit as [n|]; cbn [page]; [|auto].
  intros H. rewrite <- (firstn_skipn (Z.to_nat (n - counted)) l).
  apply in_or_app. left. exact H.
Qed.

(** C10.  When [Objects] returns a connection, its count is the number of
    references in the group apiextensions.crossplane.io, whatever their kind,
    while its items are as many as the references of the page whose kind is
    CompositeResourceDefinition or Composition; every object that is fetched
    is that of a reference of the group, of one of these two kinds.  For some
    inputs the items are fewer than min(count, limit). *)
Theorem Objects_counts_the_group :
  (forall (E : Externals) r ctx obj limit c,
     resolvers.Get (resolvers.status_clients r) (fst (token_FromContext ctx)) = (c, None) ->
     Z.of_nat (List.length (model.ObjectRefs obj)) <= MaxInt ->
     (forall out err,
        snd (resolvers.Objects r ctx obj limit) = (Some out, err) ->
        model.KubernetesResource_Count out
        = Z.of_nat (List.length (filter inGroup (model.ObjectRefs obj)))
        /\ List.length (model.KubernetesResource_Items out)
           = List.length (filter producesItem
                            (page limit 0 (filter inGroup (model.ObjectRefs obj)))))
     /\ (forall f, In f (fst (resolvers.Objects r ctx obj limit)) ->
           exists ref, In ref (model.ObjectRefs obj) /\ inGroup ref = true
                       /\ producesItem ref = true /\ f = fetchOf ref))
  /\ (exists (E : Externals) r ctx obj l out,
        snd (resolvers.Objects r ctx obj (Some l)) = (Some out, None)
        /\ Z.of_nat (List.length (model.KubernetesResource_Items out))
           < Z.min (model.KubernetesResource_Count out) l).
Proof.
  split.
  - intros E r ctx obj limit c Hget Hlen.
    rewrite (Objects_objectsOf r ctx obj limit c Hget Hlen).
    unfold objectsOf.
    cbn [model.KubernetesResource_Count model.KubernetesResource_Items app].
    pose proof (modelRefs_fetched c (page limit 0 (filter inGroup (model.ObjectRefs obj))))
      as F.
    pose proof (modelRefs_items c (page limit 0 (filter inGroup (model.ObjectRefs obj))))
      as I.
    destruct (modelRefs _ _) as [fs [ms err]]. cbn [fst snd] in *. split.
    + intros out err'. destruct err as [e|]; [discriminate|].
      intros [= <- _]. cbn [model.KubernetesResource_Count model.KubernetesResource_Items].
      split; [lia|]. apply (I fs ms). reflexivity.
    + intros f Hf. destruct (F f Hf) as (ref & Hin & Hp & ->).
      apply page_In, filter_In in Hin. destruct Hin as [Hin Hg].
      exists ref. repeat split; assumption.
  - exists example.externals,
      (resolvers.mkConfigurationRevisionStatus (E := example.externals) (example.cache [])),
      (Some "token"%string),
      (model.mkConfigurationRevisionStatus example.objectRefs),
      2.
    eexists. split; [vm_compute; reflexivity|]. vm_compute. reflexivity.
Qed.

(** C7.  The composite resource [example.database] is modelled without an
    error, and the ID of its record is the zero reference, not the reference
    made of the apiVersion, kind, namespace and name of the object, which is
    the ID of the generic resource that [GetGenericResource] makes of the
    same object. *)
Theorem GetCompositeResource_ID_unset :
  snd (model.GetCompositeResource (E := example.externals) example.database) = None
  /\ model.CompositeResource_ID
       (fst (model.GetCompositeResource (E := example.externals) example.database))
     = model.ReferenceID_zero
  /\ referenceOf example.database = model.mkReferenceID "example.org/v1" "XDatabase" EmptyString "my-db"
  /\ model.CompositeResource_ID
       (fst (model.GetCompositeResource (E := example.externals) example.database))
     <> referenceOf example.database
  /\ model.GenericResource_ID
       (fst (model.GetGenericResource (E := example.externals) example.database))
     = referenceOf example.database.
Proof.
  repeat split; try reflexivity. vm_compute. discriminate.
Qed.

(** Every record that [GetCompositeResource] returns has the zero ID. *)
Lemma GetCompositeResource_ID_zero `{E : Externals} (u : kunstructured.Unstructured) :
  model.CompositeResource_ID (fst (model.GetCompositeResource u)) = model.ReferenceID_zero.
Proof.
  unfold model.GetCompositeResource. destruct (json_Marshal u) as [raw [e|]]; reflexivity.
Qed.

(** A generic resource carries the reference of its object. *)
Lemma GetGenericResource_ID `{E : Externals} (u : kunstructured.Unstructured) :
  snd (model.GetGenericResource u) = None ->
  model.GenericResource_ID (fst (model.GetGenericResource u)) = referenceOf u.
Proof.
  unfold model.GetGenericResource. destruct (json_Marshal u) as [raw [e|]]; cbn.
  - discriminate.
  - reflexivity.
Qed.

(** C8, as stated, fails: [example.managedProvider] has the kind Provider
    and its conversion into a Provider fails, yet [GetKubernetesResource]
    returns a managed resource and no error, because the heuristic for
    managed resources is tried first. *)
Lemma conversion_failure_unreported :
  ~ (knownPackageKind example.managedProvider = true ->
     conversionError (E := example.externals) example.managedProvider <> None ->
     (exists e,
        snd (model.GetKubernetesResource (E := example.externals) example.managedProvider)
        = Some e)
     /\ forall g,
          fst (model.GetKubernetesResource (E := example.externals) example.managedProvider)
          <> Some (model.IsGenericResource g)).
Proof.
  intros claim.
  destruct claim as [[e He] _].
  - reflexivity.
  - vm_compute. discriminate.
  - vm_compute in He. discriminate He.
Qed.

(** ** Examples *)

Example EncodeToString_one_byte : base64.EncodeToString "a" = "YQ"%string.
Proof. reflexivity. Qed.

Example String_of_a_reference :
  model.ReferenceID_String (model.mkReferenceID "a/v1" "Foo" "ns" "bar")
  = "YS92MXxGb298bnN8YmFy"%string.
Proof. vm_compute. reflexivity. Qed.

Example DecodeString_padded :
  base64.DecodeString "YQ==" = (EmptyString, Some (errors.CorruptInputError 2)).
Proof. vm_compute. reflexivity. Qed.

Example DecodeString_one_character :
  base64.DecodeString "Y" = (EmptyString, Some (errors.CorruptInputError 0)).
Proof. vm_compute. reflexivity. Qed.

Example DecodeString_skips_line_breaks :
  base64.DecodeString (String "Y" (String "010" (String "Q" EmptyString)))
  = ("a"%string, None).
Proof. vm_compute. reflexivity. Qed.

(** The token of "a|b|c" has three parts only. *)
Example ParseReferenceID_three_parts :
  model.ParseReferenceID "YXxifGM"
  = (model.ReferenceID_zero, Some (errors.New model.errMalformed)).
Proof. vm_compute. reflexivity. Qed.

(** A namespace that contains the separator does not come back. *)
Example ParseReferenceID_separator_in_field :
  model.ParseReferenceID
    (model.ReferenceID_String (model.mkReferenceID "v1" "Secret" "n|s" "x"))
  = (model.ReferenceID_zero, Some (errors.New model.errMalformed)).
Proof. vm_compute. reflexivity. Qed.

(** Five candidates, three of them controlled by P, and a limit of two: the
    count is three and the items are the first two of the three. *)
Example Revisions_of_P :
  resolvers.Revisions (E := example.externals)
    (resolvers.mkConfiguration (E := example.externals) (example.cache example.revisions))
    (Some "token"%string) "P"%string (Some 2) None
  = (Some (model.mkConfigurationRevisionConnection (E := example.externals)
             ["a"; "c"]%string 3), None).
Proof. vm_compute. reflexivity. Qed.

Example Revisions_of_P_active :
  resolvers.Revisions (E := example.externals)
    (resolvers.mkConfiguration (E := example.externals) (example.cache example.revisions))
    (Some "token"%string) "P"%string None (Some true)
  = (Some (model.mkConfigurationRevisionConnection (E := example.externals)
             ["a"]%string 1), None).
Proof. vm_compute. reflexivity. Qed.

(** The composite resource is classified as such, and has no ID. *)
Example GetKubernetesResource_database :
  option_map (fun r => match r with
                       | model.IsCompositeResource xr => Some (model.CompositeResource_ID xr)
                       | _ => None
                       end)
    (fst (model.GetKubernetesResource (E := example.externals) example.database))
  = Some (Some model.ReferenceID_zero).
Proof. vm_compute. reflexivity. Qed.

(** ** Instances *)

Lemma ParseReferenceID_String_witness :
  model.ParseReferenceID
    (model.ReferenceID_String (model.mkReferenceID "a/v1" "Foo" "ns" "bar"))
  = (model.mkReferenceID "a/v1" "Foo" "ns" "bar", None).
Proof.
  apply (ParseReferenceID_String (model.mkReferenceID "a/v1" "Foo" "ns" "bar"));
    reflexivity.
Defined.

Lemma Revisions_Count_witness :
  exists out,
    resolvers.Revisions (E := example.externals)
      (resolvers.mkConfiguration (E := example.externals) (example.cache example.revisions))
      (Some "token"%string) "P"%string (Some 2) None = (Some out, None)
    /\ model.Count out = 3.
Proof.
  destruct (Revisions_Count (E := example.externals)
              (resolvers.mkConfiguration (E := example.externals)
                 (example.cache example.revisions))
              (Some "token"%string) "P"%string (Some 2) None
              (example.client example.revisions) example.revisions
              eq_refl eq_refl ltac:(vm_compute; discriminate)) as [Hcount Hreturns].
  destruct Hreturns as [out Hout].
  - intros cr Hin. vm_compute in Hin.
    destruct Hin as [<-|[<-|[]]]; reflexivity.
  - exists out. split; [exact Hout|]. exact (proj1 (Hcount out None Hout)).
Defined.

Lemma Revisions_Items_witness :
  exists out,
    resolvers.Revisions (E := example.externals)
      (resolvers.mkConfiguration (E := example.externals) (example.cache example.revisions))
      (Some "token"%string) "P"%string (Some 2) None = (Some out, None)
    /\ Z.of_nat (List.length (model.Items out)) = Z.min (model.Count out) 2
    /\ model.Items out = ["a"; "c"]%string.
Proof.
  eexists. split; [vm_compute; reflexivity|]. split; [|reflexivity].
  apply (proj1 (Revisions_Items (E := example.externals)
                  (resolvers.mkConfiguration (E := example.externals)
                     (example.cache example.revisions))
                  (Some "token"%string) "P"%string (Some 2) None
                  (example.client example.revisions) example.revisions
                  eq_refl eq_refl ltac:(vm_compute; discriminate))
           (model.mkConfigurationRevisionConnection (E := example.externals)
              ["a"; "c"]%string 3) None eq_refl).
  vm_compute. discriminate.
Defined.

Lemma Revisions_fail_fast_witness :
  fst (resolvers.Revisions (E := example.externals)
         (resolvers.mkConfiguration (E := example.externals)
            (example.cache example.revisions_with_nameless))
         (Some "token"%string) "P"%string (Some 2) None) = None
  /\ exists e,
       snd (resolvers.Revisions (E := example.externals)
              (resolvers.mkConfiguration (E := example.externals)
                 (example.cache example.revisions_with_nameless))
              (Some "token"%string) "P"%string (Some 2) None) = Some e.
Proof.
  apply (Revisions_fail_fast (E := example.externals)
           (resolvers.mkConfiguration (E := example.externals)
              (example.cache example.revisions_with_nameless))
           (Some "token"%string) "P"%string (Some 2) None
           (example.client example.revisions_with_nameless) example.revisions_with_nameless
           (example.revision EmptyString "P" "Inactive")
           eq_refl eq_refl ltac:(vm_compute; discriminate)).
  - vm_compute. right. left. reflexivity.
  - vm_compute. discriminate.
Defined.

Lemma Revisions_negative_limit_witness :
  resolvers.Revisions (E := example.externals)
    (resolvers.mkConfiguration (E := example.externals) (example.cache example.revisions))
    (Some "token"%string) "P"%string (Some (-1)) None
  = (Some (model.mkConfigurationRevisionConnection (E := example.externals) [] 3), None).
Proof.
  apply (Revisions_negative_limit (E := example.externals)
           (resolvers.mkConfiguration (E := example.externals)
              (example.cache example.revisions))
           (Some "token"%string) "P"%string (-1) None
           (example.client example.revisions) example.revisions
           eq_refl eq_refl ltac:(vm_compute; discriminate) eq_refl).
Defined.

Lemma GetKubernetesResource_dispatch_order_witness :
  model.GetKubernetesResource (E := example.externals) example.managedProvider
  = (Some (model.IsManagedResource (E := example.externals) "provider-aws"%string), None)
  /\ option_map shapeOf
       (fst (model.GetKubernetesResource (E := example.externals) example.managedProvider))
     = Some ManagedResourceShape.
Proof.
  apply (proj1 (GetKubernetesResource_dispatch_order (E := example.externals))
           example.managedProvider eq_refl eq_refl).
Defined.

Lemma conversion_failure_is_an_error_witness :
  fst (model.GetKubernetesResource (E := example.externals) example.malformedProvider) = None
  /\ exists e,
       snd (model.GetKubernetesResource (E := example.externals) example.malformedProvider)
       = Some e.
Proof.
  apply (proj2 (conversion_failure_is_an_error (E := example.externals)
                  example.malformedProvider eq_refl ltac:(vm_compute; discriminate)));
    reflexivity.
Defined.

Lemma Objects_counts_the_group_witness :
  exists out,
    snd (resolvers.Objects (E := example.externals)
           (resolvers.mkConfigurationRevisionStatus (E := example.externals)
              (example.cache []))
           (Some "token"%string)
           (model.mkConfigurationRevisionStatus example.objectRefs)
           (Some 2)) = (Some out, None)
    /\ model.KubernetesResource_Count out = 2
    /\ List.length (model.KubernetesResource_Items out) = 1%nat.
Proof.
  eexists. split; [vm_compute; reflexivity|].
  apply (proj1 (proj1 Objects_counts_the_group example.externals
           (resolvers.mkConfigurationRevisionStatus (E := example.externals)
              (example.cache []))
           (Some "token"%string)
           (model.mkConfigurationRevisionStatus example.objectRefs)
           (Some 2) (example.client [])
           eq_refl ltac:(vm_compute; discriminate))
           (model.mkKubernetesResourceConnection (E := example.externals)
              [model.IsCompositeResourceDefinition (E := example.externals) "xdbs"%string] 2)
           None eq_refl).
Defined.

(** * Further properties

    ** The identity codec and the GraphQL scalar *)

Local Open Scope string_scope.

Lemma Count_nonneg s sep : 0 <= strings.Count s sep.
Proof.
  induction s as [|c s IH]; cbn [strings.Count]; [lia|].
  destruct (Ascii.eqb c sep); lia.
Qed.

Lemma Count_app_sep a b sep :
  strings.Count (a ++ String sep b) sep = strings.Count a sep + 1 + strings.Count b sep.
Proof.
  induction a as [|c a IH]; cbn [append strings.Count].
  - rewrite Ascii.eqb_refl. lia.
  - rewrite IH. lia.
Qed.

Lemma Contains_Count s sep : strings.Contains s sep = true <-> 0 < strings.Count s sep.
Proof.
  induction s as [|c s IH]; cbn [strings.Contains strings.Count].
  - split; [discriminate | lia].
  - pose proof (Count_nonneg s sep). destruct (Ascii.eqb c sep); cbn [orb].
    + split; [lia | reflexivity].
    + rewrite IH. split; lia.
Qed.

Lemma Split_parts_free s sep : forall p, In p (strings.Split s sep) -> strings.Contains p sep = false.
Proof.
  induction s as [|c s IH]; cbn [strings.Split]; intros p Hin.
  - destruct Hin as [<-|[]]. reflexivity.
  - destruct (Ascii.eqb c sep) eqn:Hc.
    + destruct Hin as [<-|Hin]; [reflexivity | apply IH, Hin].
    + pose proof (Split_not_nil s sep) as N.
      destruct (strings.Split s sep) as [|part parts]; [contradiction|].
      destruct Hin as [<-|Hin].
      * cbn [strings.Contains]. rewrite Hc. cbn [orb]. apply IH. left. reflexivity.
      * apply IH. right. exact Hin.
Qed.

(** Parsing the token of a reference: the reference when it is free of
    separators, the malformed-id error otherwise. *)
Lemma ParseReferenceID_of_String ref :
  model.ParseReferenceID (model.ReferenceID_String ref)
  = if separatorFree ref then (ref, None)
    else (model.ReferenceID_zero, Some (errors.New model.errMalformed)).
Proof.
  destruct ref as [a k ns n]. unfold separatorFree, model.ParseReferenceID, model.ReferenceID_String.
  cbn [model.APIVersion model.Kind model.Namespace model.Name].
  rewrite DecodeString_EncodeToString.
  destruct (strings.Contains a model.sep) eqn:Ha;
  destruct (strings.Contains k model.sep) eqn:Hk;
  destruct (strings.Contains ns model.sep) eqn:Hns;
  destruct (strings.Contains n model.sep) eqn:Hn; cbn [orb negb].
  16: { rewrite !Split_app_sep, Split_without_sep by assumption. reflexivity. }
  all: match goal with
       | |- context [List.length (strings.Split ?j model.sep)] =>
           pose proof (length_Split j model.sep) as L
       end;
    rewrite !Count_app_sep in L;
    pose proof (Count_nonneg a model.sep); pose proof (Count_nonneg k model.sep);
    pose proof (Count_nonneg ns model.sep); pose proof (Count_nonneg n model.sep);
    repeat match goal with
    | H : strings.Contains _ _ = true |- _ => apply Contains_Count in H
    end;
    match goal with
    | |- context [Nat.eqb ?x 4] => destruct (Nat.eqb_spec x 4) as [F|_]; [lia | reflexivity]
    end.
Qed.

(** X1.  When a field of the reference contains the separator, parsing its
    token fails with the malformed-id error: the token decodes, into more than
    four parts. *)
Theorem ParseReferenceID_String_separator ref :
  separatorFree ref = false ->
  model.ParseReferenceID (model.ReferenceID_String ref)
  = (model.ReferenceID_zero, Some (errors.New model.errMalformed)).
Proof.
  intros H. rewrite ParseReferenceID_of_String, H. reflexivity.
Qed.

(** X2.  Two references free of separators that have the same token are the
    same reference. *)
Theorem ReferenceID_String_injective r1 r2 :
  separatorFree r1 = true -> separatorFree r2 = true ->
  model.ReferenceID_String r1 = model.ReferenceID_String r2 -> r1 = r2.
Proof.
  intros H1 H2 Heq.
  pose proof (ParseReferenceID_of_String r1) as P1.
  pose proof (ParseReferenceID_of_String r2) as P2.
  rewrite H1 in P1. rewrite H2 in P2. rewrite Heq in P1. congruence.
Qed.

(** X3.  A reference that [ParseReferenceID] returns is free of separators:
    encoding it and parsing the token gives it back. *)
Theorem ParseReferenceID_stable id ref :
  model.ParseReferenceID id = (ref, None) ->
  model.ParseReferenceID (model.ReferenceID_String ref) = (ref, None).
Proof.
  intros H. rewrite ParseReferenceID_of_String.
  replace (separatorFree ref) with true; [reflexivity|].
  unfold model.ParseReferenceID in H.
  destruct (base64.DecodeString id) as [b [e|]]; [discriminate|].
  pose proof (Split_parts_free b model.sep) as F.
  destruct (strings.Split b model.sep) as [|a [|k [|ns [|n [|x parts]]]]]; try discriminate.
  cbn in H. injection H as <-. unfold separatorFree.
  cbn [model.APIVersion model.Kind model.Namespace model.Name].
  rewrite (F a), (F k), (F ns), (F n); cbn; auto.
Qed.

Lemma encode_alphabet i : 0 <= i < 64 -> isBase64Char (base64.encode i) = true.
Proof.
  intros Hi.
  assert (A : forallb (fun n => isBase64Char (base64.encode (Z.of_nat n))) (seq 0 64) = true)
    by (vm_compute; reflexivity).
  rewrite forallb_forall in A.
  specialize (A (Z.to_nat i)). cbv beta in A.
  rewrite Z2Nat.id in A by lia. apply A, in_seq. lia.
Qed.

Lemma EncodeToString_alphabet_fuel n : forall s,
  (String.length s < n)%nat ->
  forallb isBase64Char (list_ascii_of_string (base64.EncodeToString s)) = true.
Proof.
  induction n as [|n IH]; intros s Hn; [lia|].
  destruct s as [|a [|b [|c rest]]].
  - reflexivity.
  - pose proof (Z_of_byte_range a) as Ha. cbn [base64.EncodeToString].
    rewrite Z.shiftl_mul_pow2 by lia.
    assert (R := sextets_range (base64.Z_of_byte a * 2 ^ 16) ltac:(lia)).
    destruct (base64.sextets _) as [[[s0 s1] s2] s3]. destruct R as (R0 & R1 & R2 & R3).
    cbn [list_ascii_of_string forallb]. rewrite !encode_alphabet by lia. reflexivity.
  - pose proof (Z_of_byte_range a) as Ha. pose proof (Z_of_byte_range b) as Hb.
    cbn [base64.EncodeToString].
    rewrite <- (Z.lor_0_r (Z.lor _ _)). rewrite pack3 by lia.
    assert (R := sextets_range (base64.Z_of_byte a * 65536 + base64.Z_of_byte b * 256 + 0)
                   ltac:(lia)).
    destruct (base64.sextets _) as [[[s0 s1] s2] s3]. destruct R as (R0 & R1 & R2 & R3).
    cbn [list_ascii_of_string forallb]. rewrite !encode_alphabet by lia. reflexivity.
  - pose proof (Z_of_byte_range a) as Ha. pose proof (Z_of_byte_range b) as Hb.
    pose proof (Z_of_byte_range c) as Hc.
    cbn [base64.EncodeToString]. rewrite pack3 by lia.
    assert (R := sextets_range
      (base64.Z_of_byte a * 65536 + base64.Z_of_byte b * 256 + base64.Z_of_byte c) ltac:(lia)).
    destruct (base64.sextets _) as [[[s0 s1] s2] s3]. destruct R as (R0 & R1 & R2 & R3).
    cbn [list_ascii_of_string forallb]. rewrite !encode_alphabet by lia.
    cbn [andb]. apply IH. cbn in Hn. lia.
Qed.

Lemma EncodeToString_alphabet s :
  forallb isBase64Char (list_ascii_of_string (base64.EncodeToString s)) = true.
Proof. apply (EncodeToString_alphabet_fuel (S (String.length s))). lia. Qed.

Lemma alphabet_Contains t c :
  isBase64Char c = false ->
  forallb isBase64Char (list_ascii_of_string t) = true ->
  strings.Contains t c = false.
Proof.
  intros Hc. induction t as [|x t IH]; cbn [list_ascii_of_string forallb strings.Contains];
    intros H; [reflexivity|].
  apply andb_true_iff in H as [Hx Ht]. rewrite (IH Ht), orb_false_r.
  destruct (Ascii.eqb_spec x c) as [->|]; [congruence | reflexivity].
Qed.

(** X4.  The token of any reference is made of letters, digits, [+] and [/]
    only, and is valid unpadded base64. *)
Theorem ReferenceID_String_alphabet id :
  forallb isBase64Char (list_ascii_of_string (model.ReferenceID_String id)) = true
  /\ valid_raw_base64 (model.ReferenceID_String id) = true.
Proof.
  split; [apply EncodeToString_alphabet|].
  apply DecodeString_valid. unfold model.ReferenceID_String.
  rewrite DecodeString_EncodeToString. reflexivity.
Qed.

(** X5.  [MarshalGQL] writes a double quote, a token and a double quote; the
    token contains neither a double quote nor a backslash, and unmarshalling
    it into any receiver gives the reference when that is free of
    separators. *)
Theorem MarshalGQL_UnmarshalGQL id :
  exists t,
    model.MarshalGQL id = String model.quote (t ++ String model.quote EmptyString)
    /\ strings.Contains t model.quote = false
    /\ strings.Contains t backslash = false
    /\ (separatorFree id = true ->
        forall r, model.UnmarshalGQL r (kunstructured.VString t) = (id, None)).
Proof.
  exists (model.ReferenceID_String id). split; [reflexivity|].
  split; [apply alphabet_Contains; [reflexivity | apply EncodeToString_alphabet]|].
  split; [apply alphabet_Contains; [reflexivity | apply EncodeToString_alphabet]|].
  intros F r. unfold model.UnmarshalGQL. rewrite ParseReferenceID_of_String, F. reflexivity.
Qed.


(** ** The classifier, continued *)

Section Classifier.
Context `{E : Externals}.

Lemma GroupVersionKind_eqb_eq a b : schema.GroupVersionKind_eqb a b = true <-> a = b.
Proof.
  unfold schema.GroupVersionKind_eqb. destruct a as [g v k], b as [g' v' k'].
  cbn [schema.Group schema.Version schema.Kind].
  rewrite !andb_true_iff, !String.eqb_eq. split.
  - intros [[-> ->] ->]. reflexivity.
  - intros [= -> -> ->]. auto.
Qed.

(** X7.  [GetKubernetesResource] returns a nil resource exactly when the three
    heuristics reject the object and the conversion that its kind names
    fails; a nil resource always comes with an error. *)
Theorem GetKubernetesResource_nil u :
  (fst (model.GetKubernetesResource u) = None <->
   ProbablyManaged u = false /\ ProbablyProviderConfig u = false
   /\ ProbablyComposite u = false /\ conversionError u <> None)
  /\ (fst (model.GetKubernetesResource u) = None ->
      snd (model.GetKubernetesResource u) <> None).
Proof.
  rewrite GetKubernetesResource_Classify.
  unfold Classify, rules, firstMatch, modelled, converted, conversionError.
  destruct (ProbablyManaged u); [cbn; split; [split; [discriminate | intros (H & _); discriminate] | discriminate]|].
  destruct (ProbablyProviderConfig u); [cbn; split; [split; [discriminate | intros (_ & H & _); discriminate] | discriminate]|].
  destruct (ProbablyComposite u); [cbn; split; [split; [discriminate | intros (_ & _ & H & _); discriminate] | discriminate]|].
  repeat match goal with
  | |- context [if ?b then _ else _] => destruct b
  end;
  try (destruct (snd (model.convert u _)) as [e|]); cbn [fst snd];
  (split; [split; [intros H; try discriminate H; repeat split; discriminate
                  | intros (_ & _ & _ & H); try reflexivity; exfalso; apply H; reflexivity]
          | intros H; try discriminate H; discriminate]).
Qed.

(** X8.  [GetKubernetesResource] returns a GenericResource exactly when the
    three heuristics reject the object and its kind is none of the five
    package kinds. *)
Theorem GetKubernetesResource_generic u :
  (exists g, fst (model.GetKubernetesResource u) = Some (model.IsGenericResource g)) <->
  ProbablyManaged u = false /\ ProbablyProviderConfig u = false
  /\ ProbablyComposite u = false /\ knownPackageKind u = false.
Proof.
  rewrite GetKubernetesResource_Classify.
  unfold Classify, rules, firstMatch, modelled, converted, knownPackageKind.
  destruct (ProbablyManaged u);
    [cbn; split; [intros [g H]; discriminate | intros (H & _); discriminate]|].
  destruct (ProbablyProviderConfig u);
    [cbn; split; [intros [g H]; discriminate | intros (_ & H & _); discriminate]|].
  destruct (ProbablyComposite u);
    [cbn; split; [intros [g H]; discriminate | intros (_ & _ & H & _); discriminate]|].
  repeat match goal with
  | |- context [if ?b then _ else _] => destruct b
  end;
  try (destruct (snd (model.convert u _)) as [e|]); cbn [fst snd orb];
  (split; [intros [g H]; try discriminate H; repeat split; reflexivity
          | intros (_ & _ & _ & H); try discriminate H; eexists; reflexivity]).
Qed.

(** X9.  An object that no rule accepts and that can be marshalled is
    returned as a GenericResource without an error, and the token of its ID
    parses to the apiVersion, kind, namespace and name of the object when
    these are free of separators. *)
Theorem GetKubernetesResource_generic_ID u :
  ProbablyManaged u = false -> ProbablyProviderConfig u = false ->
  ProbablyComposite u = false -> knownPackageKind u = false ->
  snd (json_Marshal u) = None ->
  separatorFree (referenceOf u) = true ->
  exists g,
    model.GetKubernetesResource u = (Some (model.IsGenericResource g), None)
    /\ model.ParseReferenceID (model.ReferenceID_String (model.GenericResource_ID g))
       = (referenceOf u, None).
Proof.
  intros M P C K J F. unfold knownPackageKind, hasKind in K.
  repeat (apply orb_false_elim in K; destruct K as [K ?]).
  unfold model.GetKubernetesResource. rewrite M, P, C.
  repeat match goal with
  | H : schema.GroupVersionKind_eqb _ _ = false |- _ => rewrite H; clear H
  end.
  unfold model.GetGenericResource.
  destruct (json_Marshal u) as [raw err]. cbn [snd] in J. subst err.
  eexists. split; [reflexivity|]. cbn [model.GenericResource_ID].
  fold (referenceOf u). rewrite ParseReferenceID_of_String, F. reflexivity.
Qed.

(** X10.  For an object of a given kind, which is not the empty one: when the
    structural conversion succeeds [convert] returns the converted object
    with that very kind set; when it fails [convert] returns its error
    wrapped as "could not convert unstructured object". *)
Theorem convert_stamps_the_kind {T : Type} `{runtime.Object T} u gvk (to : T) :
  hasKind gvk u = true ->
  gvk <> schema.mkGroupVersionKind EmptyString EmptyString EmptyString ->
  (snd (runtime.FromUnstructured (kunstructured.Object u) to) = None ->
   model.convert u to
   = (runtime.SetGroupVersionKind gvk
        (fst (runtime.FromUnstructured (kunstructured.Object u) to)), None))
  /\ (forall e, snd (runtime.FromUnstructured (kunstructured.Object u) to) = Some e ->
      model.convert u to
      = (fst (runtime.FromUnstructured (kunstructured.Object u) to),
         Some (errors.withMessage e "could not convert unstructured object"))).
Proof.
  intros K N. unfold hasKind in K. apply GroupVersionKind_eqb_eq in K.
  unfold model.convert.
  destruct (runtime.FromUnstructured (kunstructured.Object u) to) as [to' [e|]];
    cbn [fst snd]; split; try discriminate.
  - intros e' [= <-]. reflexivity.
  - intros _. f_equal. f_equal.
    unfold kunstructured.GroupVersionKind in K. unfold schema.FromAPIVersionAndKind.
    destruct (schema.ParseGroupVersion (kunstructured.GetAPIVersion u)) as [gv [e|]].
    + subst gvk. contradiction N. reflexivity.
    + exact K.
Qed.

End Classifier.

Local Open Scope list_scope.

(** ** Custom resource definitions and secrets *)

Lemma update_at {A : Type} (pre : list A) z post f :
  slice.update (pre ++ z :: post) (List.length pre) f = pre ++ f z :: post.
Proof. induction pre as [|x pre IH]; cbn; [reflexivity | rewrite IH; reflexivity]. Qed.

Lemma for_range_fills {A B : Type} (body : nat -> A -> list B -> list B) (g : A -> B) :
  (forall x pre z post,
     body (List.length pre) x (pre ++ z :: post) = pre ++ g x :: post) ->
  forall l pre zs, List.length zs = List.length l ->
    slice.for_range body (List.length pre) l (pre ++ zs) = pre ++ map g l.
Proof.
  intros Hbody. induction l as [|x l IH]; intros pre zs Hlen.
  - destruct zs; [reflexivity | discriminate].
  - destruct zs as [|z zs]; [discriminate|]. cbn [slice.for_range map].
    rewrite Hbody.
    replace (pre ++ g x :: zs) with ((pre ++ [g x]) ++ zs) by (rewrite <- app_assoc; reflexivity).
    replace (S (List.length pre)) with (List.length (pre ++ [g x]))
      by (rewrite length_app; cbn; lia).
    rewrite IH by (cbn in Hlen; lia). rewrite <- app_assoc. reflexivity.
Qed.

Section CRD.
Context `{E : Externals} `{S : Schemas} `{K : @Kubernetes E S}.

(** X11.  [GetCustomResourceDefinitionVersions] gives nil for nil, and
    otherwise one version for each version, in order, with its name and its
    served flag; the schema is present exactly when the version has an
    OpenAPI schema that can be marshalled, and a failure to marshal is not an
    error. *)
Theorem GetCustomResourceDefinitionVersions_map in_ :
  model.GetCustomResourceDefinitionVersions in_
  = match in_ with
    | None => None
    | Some l => Some (map versionOf l)
    end.
Proof.
  destruct in_ as [l|]; [|reflexivity]. unfold model.GetCustomResourceDefinitionVersions.
  f_equal. unfold slice.make.
  apply (for_range_fills _ versionOf) with (pre := []); [|apply repeat_length].
  intros x pre z post. rewrite update_at. unfold versionOf.
  destruct (kextv1.Schema x) as [s|]; [|reflexivity].
  destruct (kextv1.OpenAPIV3Schema s) as [props|]; [|reflexivity].
  destruct (json_Marshal_JSONSchemaProps props) as [raw [e|]]; [reflexivity|].
  rewrite update_at. reflexivity.
Qed.

(** X12.  [GetCustomResourceDefinitionConditions] gives nil for nil, and
    otherwise one condition for each condition, in order, each with a message
    of its own. *)
Theorem GetCustomResourceDefinitionConditions_map in_ :
  model.GetCustomResourceDefinitionConditions in_
  = match in_ with
    | None => None
    | Some l => Some (map conditionOf l)
    end.
Proof.
  destruct in_ as [l|]; [|reflexivity]. unfold model.GetCustomResourceDefinitionConditions.
  f_equal. unfold slice.make.
  apply (for_range_fills _ conditionOf) with (pre := []); [|apply repeat_length].
  intros x pre z post. rewrite update_at. reflexivity.
Qed.

(** X13.  The token of the ID of the record that [GetSecret] makes of a secret
    that can be marshalled parses to the apiVersion, kind, namespace and name
    of the secret, when these are free of separators. *)
Theorem GetSecret_ID s :
  snd (json_Marshal_Secret s) = None ->
  separatorFree (model.mkReferenceID (corev1.APIVersion s) (corev1.Kind s)
                   (corev1.Namespace s) (corev1.Name s)) = true ->
  snd (model.GetSecret s) = None
  /\ model.ParseReferenceID (model.ReferenceID_String (model.Secret_ID (fst (model.GetSecret s))))
     = (model.mkReferenceID (corev1.APIVersion s) (corev1.Kind s)
          (corev1.Namespace s) (corev1.Name s), None).
Proof.
  intros J F. unfold model.GetSecret.
  destruct (json_Marshal_Secret s) as [raw err]. cbn [snd] in J. subst err.
  cbn [fst snd model.Secret_ID]. split; [reflexivity|].
  rewrite ParseReferenceID_of_String, F. reflexivity.
Qed.


End CRD.

(** ** The connections, continued *)

Section Connections.
Context `{E : Externals}.

Lemma Revisions_range_xor obj limit active candidates : forall out,
  (exists out', resolvers.Revisions_range obj limit active candidates out = (Some out', None))
  \/ (exists e, resolvers.Revisions_range obj limit active candidates out = (None, Some e)).
Proof.
  induction candidates as [|cr rest IH]; intros out; cbn [resolvers.Revisions_range].
  - left. eexists. reflexivity.
  - repeat match goal with
    | |- context [if ?b then _ else _] => destruct b
    end; try apply IH.
    destruct (GetConfigurationRevision cr) as [i [e|]]; [|apply IH].
    right. eexists. reflexivity.
Qed.

(** X15.  [Revisions] returns either a connection and no error, or an error
    and no connection. *)
Theorem Revisions_connection_xor_error r ctx obj limit active :
  (exists out, resolvers.Revisions r ctx obj limit active = (Some out, None))
  \/ (exists e, resolvers.Revisions r ctx obj limit active = (None, Some e)).
Proof.
  unfold resolvers.Revisions. destruct (token_FromContext ctx) as [t ok].
  destruct (resolvers.Get (resolvers.clients r) t) as [c [e|]];
    [right; eexists; reflexivity|].
  destruct (resolvers.List c) as [in_ [e|]]; [right; eexists; reflexivity|].
  apply Revisions_range_xor.
Qed.

Lemma Revisions_range_active_false obj limit candidates : forall out,
  resolvers.Revisions_range obj limit (Some false) candidates out
  = resolvers.Revisions_range obj limit None candidates out.
Proof.
  induction candidates as [|cr rest IH]; intros out; cbn [resolvers.Revisions_range];
    [reflexivity|].
  cbn [pointer.BoolPtrDerefOr andb]. rewrite !IH.
  destruct (GetConfigurationRevision cr) as [i [e|]]; [reflexivity|].
  rewrite IH. reflexivity.
Qed.

(** X16.  Asking for [active: false] is asking for nothing: the result is
    that of leaving [active] unset, not the inactive revisions. *)
Theorem Revisions_active_false r ctx obj limit :
  resolvers.Revisions r ctx obj limit (Some false) = resolvers.Revisions r ctx obj limit None.
Proof.
  unfold resolvers.Revisions. destruct (token_FromContext ctx) as [t ok].
  destruct (resolvers.Get (resolvers.clients r) t) as [c [e|]]; [reflexivity|].
  destruct (resolvers.List c) as [in_ [e|]]; [reflexivity|].
  apply Revisions_range_active_false.
Qed.

Lemma modelAll_firstn n : forall l ms,
  modelAll l = (ms, None) -> modelAll (firstn n l) = (firstn n ms, None).
Proof.
  induction n as [|n IH]; intros l ms H; [reflexivity|].
  destruct l as [|cr rest]; cbn [modelAll firstn] in *.
  - injection H as <-. reflexivity.
  - destruct (GetConfigurationRevision cr) as [i [e|]]; [discriminate|].
    destruct (modelAll rest) as [ms' err] eqn:R. injection H as <- ->.
    rewrite (IH rest ms' R). reflexivity.
Qed.

(** X17.  When [Revisions] returns a connection for some limit, or without
    one, it returns for any smaller limit the connection of the same count
    whose items are the first of those items. *)
Theorem Revisions_smaller_limit r ctx obj l limit' active c candidates out' :
  resolvers.Get (resolvers.clients r) (fst (token_FromContext ctx)) = (c, None) ->
  resolvers.List c = (candidates, None) ->
  Z.of_nat (List.length candidates) <= MaxInt ->
  match limit' with Some l' => l <= l' | None => True end ->
  resolvers.Revisions r ctx obj limit' active = (Some out', None) ->
  resolvers.Revisions r ctx obj (Some l) active
  = (Some (model.mkConfigurationRevisionConnection
             (firstn (Z.to_nat l) (model.Items out')) (model.Count out')), None).
Proof.
  intros Hget Hlist Hlen Hle HR.
  destruct (Revisions_result r ctx obj limit' active c candidates out' None
              Hget Hlist Hlen HR) as [Hcount Hitems].
  rewrite (Revisions_connectionOf r ctx obj (Some l) active c candidates Hget Hlist Hlen).
  unfold connectionOf. cbn [model.Count model.Items app page].
  rewrite Z.sub_0_r.
  assert (P : firstn (Z.to_nat l) (survivors obj active candidates)
              = firstn (Z.to_nat l) (page limit' 0 (survivors obj active candidates))).
  { destruct limit' as [l'|]; cbn [page]; [|reflexivity].
    rewrite Z.sub_0_r, firstn_firstn. f_equal. lia. }
  rewrite P, (modelAll_firstn _ _ _ Hitems). rewrite Hcount. reflexivity.
Qed.

(** X18.  A candidate that fails a filter has no effect: the result is the
    same with the candidate in the list and without it. *)
Theorem Revisions_ignores_excluded r1 r2 ctx obj limit active c1 c2 xs x ys :
  resolvers.Get (resolvers.clients r1) (fst (token_FromContext ctx)) = (c1, None) ->
  resolvers.List c1 = (xs ++ x :: ys, None) ->
  resolvers.Get (resolvers.clients r2) (fst (token_FromContext ctx)) = (c2, None) ->
  resolvers.List c2 = (xs ++ ys, None) ->
  Z.of_nat (List.length (xs ++ x :: ys)) <= MaxInt ->
  survives obj active x = false ->
  resolvers.Revisions r1 ctx obj limit active = resolvers.Revisions r2 ctx obj limit active.
Proof.
  intros G1 L1 G2 L2 Hlen Hx.
  rewrite (Revisions_connectionOf r1 ctx obj limit active c1 _ G1 L1 Hlen).
  rewrite (Revisions_connectionOf r2 ctx obj limit active c2 _ G2 L2)
    by (rewrite length_app in *; cbn [List.length] in Hlen; lia).
  unfold connectionOf, survivors. rewrite !filter_app. cbn [filter]. rewrite Hx. reflexivity.
Qed.

(** X19.  In a connection that [Revisions] returns there are at most count
    items, the count is at most the number of candidates, and with a limit
    there are at most max(0, limit) items. *)
Theorem Revisions_Items_bounds r ctx obj limit active c candidates out err :
  resolvers.Get (resolvers.clients r) (fst (token_FromContext ctx)) = (c, None) ->
  resolvers.List c = (candidates, None) ->
  Z.of_nat (List.length candidates) <= MaxInt ->
  resolvers.Revisions r ctx obj limit active = (Some out, err) ->
  Z.of_nat (List.length (model.Items out)) <= model.Count out
  /\ model.Count out <= Z.of_nat (List.length candidates)
  /\ match limit with
     | Some l => Z.of_nat (List.length (model.Items out)) <= Z.max 0 l
     | None => True
     end.
Proof.
  intros Hget Hlist Hlen HR.
  destruct (Revisions_result r ctx obj limit active c candidates out err
              Hget Hlist Hlen HR) as [Hcount Hitems].
  pose proof (modelAll_length _ _ Hitems) as Hl.
  pose proof (filter_length_le (survives obj active) candidates) as Hf.
  unfold survivors in *. rewrite Hl, Hcount.
  destruct limit as [l|]; cbn [page]; rewrite ?length_firstn; repeat split; lia.
Qed.

(** *** Objects *)

Lemma Objects_range_xor c limit refs : forall out fetched,
  (exists out', snd (resolvers.Objects_range c limit refs out fetched) = (Some out', None))
  \/ (exists e, snd (resolvers.Objects_range c limit refs out fetched) = (None, Some e)).
Proof.
  induction refs as [|ref rest IH]; intros out fetched; cbn [resolvers.Objects_range].
  - left. eexists. reflexivity.
  - destruct (negb _); [apply IH|].
    destruct (match limit with Some l => _ | None => false end); [apply IH|].
    destruct (String.eqb (xpv1.Kind ref) extv1.CompositeResourceDefinitionKind).
    { destruct (resolvers.Get_CompositeResourceDefinition c (xpv1.Name ref)) as [xrd [e|]];
        [right; eexists; reflexivity|].
      destruct (GetCompositeResourceDefinition xrd) as [i [e|]];
        [right; eexists; reflexivity | apply IH]. }
    destruct (String.eqb (xpv1.Kind ref) extv1.CompositionKind); [|apply IH].
    destruct (resolvers.Get_Composition c (xpv1.Name ref)) as [cmp [e|]];
      [right; eexists; reflexivity|].
    destruct (GetComposition cmp) as [i [e|]]; [right; eexists; reflexivity | apply IH].
Qed.

(** X20.  [Objects] returns either a connection and no error, or an error and
    no connection. *)
Theorem Objects_connection_xor_error r ctx obj limit :
  (exists out, snd (resolvers.Objects r ctx obj limit) = (Some out, None))
  \/ (exists e, snd (resolvers.Objects r ctx obj limit) = (None, Some e)).
Proof.
  unfold resolvers.Objects. destruct (token_FromContext ctx) as [t ok].
  destruct (resolvers.Get (resolvers.status_clients r) t) as [c [e|]];
    [right; eexists; reflexivity|].
  apply Objects_range_xor.
Qed.

Lemma modelRefs_fetched_length c refs :
  (List.length (fst (modelRefs c refs)) <= List.length (filter producesItem refs))%nat.
Proof.
  induction refs as [|ref rest IH]; cbn [modelRefs filter]; [cbn; lia|].
  unfold producesItem at 1.
  destruct (String.eqb (xpv1.Kind ref) extv1.CompositeResourceDefinitionKind).
  { cbn [orb List.length].
    destruct (resolvers.Get_CompositeResourceDefinition c (xpv1.Name ref)) as [xrd [e|]];
      [cbn; lia|].
    destruct (GetCompositeResourceDefinition xrd) as [i [e|]]; [cbn; lia|].
    destruct (modelRefs c rest) as [fs [ms err]]. cbn [fst List.length] in *. lia. }
  destruct (String.eqb (xpv1.Kind ref) extv1.CompositionKind).
  { cbn [orb List.length].
    destruct (resolvers.Get_Composition c (xpv1.Name ref)) as [cmp [e|]]; [cbn; lia|].
    destruct (GetComposition cmp) as [i [e|]]; [cbn; lia|].
    destruct (modelRefs c rest) as [fs [ms err]]. cbn [fst List.length] in *. lia. }
  cbn [orb]. exact IH.
Qed.

(** X21.  [Objects] gets at most one object for each reference of the group
    whose kind it handles, and with a limit at most max(0, limit) objects. *)
Theorem Objects_fetches_within_limit r ctx obj limit c :
  resolvers.Get (resolvers.status_clients r) (fst (token_FromContext ctx)) = (c, None) ->
  Z.of_nat (List.length (model.ObjectRefs obj)) <= MaxInt ->
  (List.length (fst (resolvers.Objects r ctx obj limit))
   <= List.length (filter producesItem (filter inGroup (model.ObjectRefs obj))))%nat
  /\ match limit with
     | Some l => Z.of_nat (List.length (fst (resolvers.Objects r ctx obj limit))) <= Z.max 0 l
     | None => True
     end.
Proof.
  intros Hget Hlen. rewrite (Objects_objectsOf r ctx obj limit c Hget Hlen).
  unfold objectsOf. cbn [model.KubernetesResource_Count].
  pose proof (modelRefs_fetched_length c
                (page limit 0 (filter inGroup (model.ObjectRefs obj)))) as L.
  destruct (modelRefs _ _) as [fs [ms err]]. cbn [fst app] in *.
  pose proof (filter_length_le producesItem
                (page limit 0 (filter inGroup (model.ObjectRefs obj)))) as F.
  destruct limit as [l|]; cbn [page] in *.
  - rewrite Z.sub_0_r in *. rewrite length_firstn in F. split; [|lia].
    etransitivity; [exact L|].
    rewrite <- (firstn_skipn (Z.to_nat l) (filter inGroup (model.ObjectRefs obj))) at 2.
    rewrite filter_app, length_app. lia.
  - split; [exact L | exact I].
Qed.

Lemma modelRefs_success c refs : forall fs ms,
  modelRefs c refs = (fs, (ms, None)) ->
  fs = map fetchOf (filter producesItem refs) /\ List.length ms = List.length fs.
Proof.
  induction refs as [|ref rest IH]; intros fs ms; cbn [modelRefs filter].
  - intros [= <- <-]. split; reflexivity.
  - unfold producesItem at 1.
    destruct (String.eqb (xpv1.Kind ref) extv1.CompositeResourceDefinitionKind).
    { cbn [orb map].
      destruct (resolvers.Get_CompositeResourceDefinition c (xpv1.Name ref)) as [xrd [e|]];
        [discriminate|].
      destruct (GetCompositeResourceDefinition xrd) as [i [e|]]; [discriminate|].
      destruct (modelRefs c rest) as [fs' [ms' err]]. intros [= <- <- ->].
      destruct (IH fs' ms' eq_refl) as [-> Hl]. cbn [List.length]. split; [reflexivity | lia]. }
    destruct (String.eqb (xpv1.Kind ref) extv1.CompositionKind).
    { cbn [orb map].
      destruct (resolvers.Get_Composition c (xpv1.Name ref)) as [cmp [e|]]; [discriminate|].
      destruct (GetComposition cmp) as [i [e|]]; [discriminate|].
      destruct (modelRefs c rest) as [fs' [ms' err]]. intros [= <- <- ->].
      destruct (IH fs' ms' eq_refl) as [-> Hl]. cbn [List.length]. split; [reflexivity | lia]. }
    cbn [orb]. apply IH.
Qed.

(** X22.  When [Objects] returns a connection, the objects it got are, in
    order, those of the references of the page whose kind it handles, and
    there is one item for each. *)
Theorem Objects_one_fetch_per_item r ctx obj limit c out err :
  resolvers.Get (resolvers.status_clients r) (fst (token_FromContext ctx)) = (c, None) ->
  Z.of_nat (List.length (model.ObjectRefs obj)) <= MaxInt ->
  snd (resolvers.Objects r ctx obj limit) = (Some out, err) ->
  fst (resolvers.Objects r ctx obj limit)
  = map fetchOf (filter producesItem (page limit 0 (filter inGroup (model.ObjectRefs obj))))
  /\ List.length (model.KubernetesResource_Items out)
     = List.length (fst (resolvers.Objects r ctx obj limit)).
Proof.
  intros Hget Hlen. rewrite (Objects_objectsOf r ctx obj limit c Hget Hlen).
  unfold objectsOf. cbn [model.KubernetesResource_Count model.KubernetesResource_Items app].
  pose proof (modelRefs_success c (page limit 0 (filter inGroup (model.ObjectRefs obj)))) as M.
  destruct (modelRefs _ _) as [fs [ms [e|]]]; cbn [fst snd]; [discriminate|].
  intros [= <- _]. cbn [model.KubernetesResource_Items].
  destruct (M fs ms eq_refl) as [-> Hl]. split; [reflexivity | exact Hl].
Qed.

Lemma modelRefs_error c refs e :
  snd (snd (modelRefs c refs)) = Some e ->
  exists ref pre,
    In ref refs /\ producesItem ref = true /\ fetchFails c ref = true
    /\ fst (modelRefs c refs) = pre ++ [fetchOf ref].
Proof.
  induction refs as [|ref rest IH]; cbn [modelRefs]; [discriminate|].
  assert (Step : snd (snd (modelRefs c rest)) = Some e ->
                 forall f, exists ref' pre,
                   In ref' (ref :: rest) /\ producesItem ref' = true
                   /\ fetchFails c ref' = true
                   /\ f :: fst (modelRefs c rest) = pre ++ [fetchOf ref']).
  { intros H f. destruct (IH H) as (ref' & pre & Hin & Hp & Hf & Hfs).
    exists ref', (f :: pre). rewrite Hfs. repeat split; auto. right. exact Hin. }
  unfold producesItem, fetchFails in *.
  destruct (String.eqb (xpv1.Kind ref) extv1.CompositeResourceDefinitionKind) eqn:K1.
  { destruct (resolvers.Get_CompositeResourceDefinition c (xpv1.Name ref)) as [xrd [e1|]] eqn:G.
    { intros _. exists ref, []. rewrite K1, G. cbn. repeat split; auto. }
    destruct (GetCompositeResourceDefinition xrd) as [i [e1|]] eqn:M.
    { intros _. exists ref, []. rewrite K1, G. cbn [fst snd]. rewrite M.
      cbn. repeat split; auto. }
    destruct (modelRefs c rest) as [fs [ms err]]. cbn [fst snd] in *. intros H.
    apply (Step H). }
  destruct (String.eqb (xpv1.Kind ref) extv1.CompositionKind) eqn:K2.
  { destruct (resolvers.Get_Composition c (xpv1.Name ref)) as [cmp [e1|]] eqn:G.
    { intros _. exists ref, []. rewrite K1, K2, G. cbn. repeat split; auto. }
    destruct (GetComposition cmp) as [i [e1|]] eqn:M.
    { intros _. exists ref, []. rewrite K1, K2, G. cbn [fst snd]. rewrite M.
      cbn. repeat split; auto. }
    destruct (modelRefs c rest) as [fs [ms err]]. cbn [fst snd] in *. intros H.
    apply (Step H). }
  intros H. destruct (IH H) as (ref' & pre & Hin & Hp & Hf & Hfs).
  exists ref', pre. repeat split; auto. right. exact Hin.
Qed.

(** X23.  When [Objects] returns an error after it obtained a client, it
    returns no connection, and the last object it asked for is that of a
    reference of the group whose get or model fails: nothing is fetched after
    the failure. *)
Theorem Objects_stops_at_the_failure r ctx obj limit c e :
  resolvers.Get (resolvers.status_clients r) (fst (token_FromContext ctx)) = (c, None) ->
  Z.of_nat (List.length (model.ObjectRefs obj)) <= MaxInt ->
  snd (snd (resolvers.Objects r ctx obj limit)) = Some e ->
  fst (snd (resolvers.Objects r ctx obj limit)) = None
  /\ exists ref pre,
       In ref (model.ObjectRefs obj) /\ inGroup ref = true /\ fetchFails c ref = true
       /\ fst (resolvers.Objects r ctx obj limit) = pre ++ [fetchOf ref].
Proof.
  intros Hget Hlen. rewrite (Objects_objectsOf r ctx obj limit c Hget Hlen).
  unfold objectsOf. cbn [model.KubernetesResource_Count].
  pose proof (modelRefs_error c (page limit 0 (filter inGroup (model.ObjectRefs obj)))) as M.
  destruct (modelRefs _ _) as [fs [ms [e'|]]]; cbn [fst snd app] in *; [|discriminate].
  intros _. split; [reflexivity|].
  destruct (M e' eq_refl) as (ref & pre & Hin & Hp & Hf & Hfs).
  apply page_In, filter_In in Hin. destruct Hin as [Hin Hg].
  exists ref, pre. repeat split; assumption.
Qed.

Lemma modelRefs_fails c refs ref :
  In ref refs -> fetchFails c ref = true -> snd (snd (modelRefs c refs)) <> None.
Proof.
  induction refs as [|x rest IH]; intros Hin Hf; [destruct Hin|].
  cbn [modelRefs]. unfold fetchFails in *.
  destruct Hin as [->|Hin].
  - destruct (String.eqb (xpv1.Kind ref) extv1.CompositeResourceDefinitionKind).
    { destruct (resolvers.Get_CompositeResourceDefinition c (xpv1.Name ref)) as [xrd [e|]];
        cbn [fst snd] in *; [discriminate|].
      destruct (GetCompositeResourceDefinition xrd) as [i [e|]]; cbn [snd] in *;
        [discriminate | discriminate Hf]. }
    destruct (String.eqb (xpv1.Kind ref) extv1.CompositionKind); [|discriminate Hf].
    destruct (resolvers.Get_Composition c (xpv1.Name ref)) as [cmp [e|]];
      cbn [fst snd] in *; [discriminate|].
    destruct (GetComposition cmp) as [i [e|]]; cbn [snd] in *;
      [discriminate | discriminate Hf].
  - specialize (IH Hin Hf).
    destruct (String.eqb (xpv1.Kind x) extv1.CompositeResourceDefinitionKind).
    { destruct (resolvers.Get_CompositeResourceDefinition c (xpv1.Name x)) as [xrd [e|]];
        [discriminate|].
      destruct (GetCompositeResourceDefinition xrd) as [i [e|]]; [discriminate|].
      destruct (modelRefs c rest) as [fs [ms err]]. exact IH. }
    destruct (String.eqb (xpv1.Kind x) extv1.CompositionKind); [|exact IH].
    destruct (resolvers.Get_Composition c (xpv1.Name x)) as [cmp [e|]]; [discriminate|].
    destruct (GetComposition cmp) as [i [e|]]; [discriminate|].
    destruct (modelRefs c rest) as [fs [ms err]]. exact IH.
Qed.

(** X24.  When the get or the model of a reference of the page fails,
    [Objects] returns an error and no connection. *)
Theorem Objects_fail_fast r ctx obj limit c ref :
  resolvers.Get (resolvers.status_clients r) (fst (token_FromContext ctx)) = (c, None) ->
  Z.of_nat (List.length (model.ObjectRefs obj)) <= MaxInt ->
  In ref (page limit 0 (filter inGroup (model.ObjectRefs obj))) ->
  fetchFails c ref = true ->
  fst (snd (resolvers.Objects r ctx obj limit)) = None
  /\ exists e, snd (snd (resolvers.Objects r ctx obj limit)) = Some e.
Proof.
  intros Hget Hlen Hin Hf. rewrite (Objects_objectsOf r ctx obj limit c Hget Hlen).
  unfold objectsOf. cbn [model.KubernetesResource_Count].
  pose proof (modelRefs_fails c _ ref Hin Hf) as M.
  destruct (modelRefs _ _) as [fs [ms [e|]]]; cbn [fst snd] in *; [|contradiction].
  split; [reflexivity | eexists; reflexivity].
Qed.

(** X25.  In a connection that [Objects] returns there are at most count
    items, the count is at most the number of references, and with a limit
    there are at most max(0, limit) items. *)
Theorem Objects_Items_bounds r ctx obj limit c out err :
  resolvers.Get (resolvers.status_clients r) (fst (token_FromContext ctx)) = (c, None) ->
  Z.of_nat (List.length (model.ObjectRefs obj)) <= MaxInt ->
  snd (resolvers.Objects r ctx obj limit) = (Some out, err) ->
  Z.of_nat (List.length (model.KubernetesResource_Items out))
  <= model.KubernetesResource_Count out
  /\ model.KubernetesResource_Count out <= Z.of_nat (List.length (model.ObjectRefs obj))
  /\ match limit with
     | Some l => Z.of_nat (List.length (model.KubernetesResource_Items out)) <= Z.max 0 l
     | None => True
     end.
Proof.
  intros Hget Hlen. rewrite (Objects_objectsOf r ctx obj limit c Hget Hlen).
  unfold objectsOf. cbn [model.KubernetesResource_Count model.KubernetesResource_Items app].
  pose proof (modelRefs_items c (page limit 0 (filter inGroup (model.ObjectRefs obj)))) as M.
  destruct (modelRefs _ _) as [fs [ms [e|]]]; cbn [fst snd]; [discriminate|].
  intros [= <- _]. cbn [model.KubernetesResource_Count model.KubernetesResource_Items].
  rewrite (M fs ms eq_refl).
  pose proof (filter_length_le producesItem
                (page limit 0 (filter inGroup (model.ObjectRefs obj)))) as F.
  pose proof (filter_length_le inGroup (model.ObjectRefs obj)) as G.
  destruct limit as [l|]; cbn [page] in *; rewrite ?length_firstn in F; repeat split; lia.
Qed.

(** X26.  With a limit of zero or less [Objects] gets no object and cannot
    fail: it returns a connection without items whose count is the number of
    references of the group. *)
Theorem Objects_without_room r ctx obj l c :
  resolvers.Get (resolvers.status_clients r) (fst (token_FromContext ctx)) = (c, None) ->
  Z.of_nat (List.length (model.ObjectRefs obj)) <= MaxInt ->
  l <= 0 ->
  resolvers.Objects r ctx obj (Some l)
  = ([], (Some (model.mkKubernetesResourceConnection []
                  (Z.of_nat (List.length (filter inGroup (model.ObjectRefs obj))))), None)).
Proof.
  intros Hget Hlen Hl. rewrite (Objects_objectsOf r ctx obj (Some l) c Hget Hlen).
  unfold objectsOf, page. cbn [model.KubernetesResource_Count model.KubernetesResource_Items].
  replace (Z.to_nat (l - 0)) with 0%nat by lia. reflexivity.
Qed.

End Connections.

(** ** Instances of the further properties *)

Lemma ParseReferenceID_String_separator_witness :
  model.ParseReferenceID
    (model.ReferenceID_String (model.mkReferenceID "v1" "Secret" "n|s" "x"))
  = (model.ReferenceID_zero, Some (errors.New model.errMalformed)).
Proof.
  apply (ParseReferenceID_String_separator (model.mkReferenceID "v1" "Secret" "n|s" "x")).
  reflexivity.
Defined.

Lemma ReferenceID_String_injective_witness :
  model.mkReferenceID "v1" "Secret" "default" "db-conn"
  = model.mkReferenceID "v1" "Secret" "default" "db-conn".
Proof.
  apply (ReferenceID_String_injective
           (model.mkReferenceID "v1" "Secret" "default" "db-conn")
           (model.mkReferenceID "v1" "Secret" "default" "db-conn")); reflexivity.
Defined.

Lemma ParseReferenceID_stable_witness :
  model.ParseReferenceID
    (model.ReferenceID_String (model.mkReferenceID "a/v1" "Foo" "ns" "bar"))
  = (model.mkReferenceID "a/v1" "Foo" "ns" "bar", None).
Proof.
  apply (ParseReferenceID_stable "YS92MXxGb298bnN8YmFy"
           (model.mkReferenceID "a/v1" "Foo" "ns" "bar")).
  vm_compute. reflexivity.
Defined.

Lemma MarshalGQL_UnmarshalGQL_witness :
  exists t,
    model.MarshalGQL (model.mkReferenceID "a/v1" "Foo" "ns" "bar")
    = String model.quote (t ++ String model.quote EmptyString)%string
    /\ model.UnmarshalGQL model.ReferenceID_zero (kunstructured.VString t)
       = (model.mkReferenceID "a/v1" "Foo" "ns" "bar", None).
Proof.
  destruct (MarshalGQL_UnmarshalGQL (model.mkReferenceID "a/v1" "Foo" "ns" "bar"))
    as (t & Hm & _ & _ & Hu).
  exists t. split; [exact Hm|]. apply Hu. reflexivity.
Defined.


Lemma GetKubernetesResource_nil_witness :
  snd (model.GetKubernetesResource (E := example.externals) example.malformedProvider)
  <> None.
Proof.
  apply (proj2 (GetKubernetesResource_nil (E := example.externals)
                  example.malformedProvider)).
  reflexivity.
Defined.

Lemma GetKubernetesResource_generic_witness :
  exists g,
    fst (model.GetKubernetesResource (E := example.externals) example_more.configMap)
    = Some (model.IsGenericResource g).
Proof.
  apply (proj2 (GetKubernetesResource_generic (E := example.externals)
                  example_more.configMap)).
  repeat split; reflexivity.
Defined.

Lemma GetKubernetesResource_generic_ID_witness :
  exists g,
    model.GetKubernetesResource (E := example.externals) example_more.configMap
    = (Some (model.IsGenericResource g), None)
    /\ model.ParseReferenceID (model.ReferenceID_String (model.GenericResource_ID g))
       = (model.mkReferenceID "v1" "ConfigMap" "default" "settings", None).
Proof.
  apply (GetKubernetesResource_generic_ID (E := example.externals) example_more.configMap);
    reflexivity.
Defined.

Lemma convert_stamps_the_kind_witness :
  model.convert (H := example.Typed_Object) example_more.provider
    (@runtime.fresh _ example.Typed_Object)
  = ((pkgv1.ProviderGroupVersionKind, "provider-aws:v1"%string), None).
Proof.
  apply (proj1 (convert_stamps_the_kind (H := example.Typed_Object)
                  example_more.provider pkgv1.ProviderGroupVersionKind
                  (@runtime.fresh _ example.Typed_Object)
                  eq_refl ltac:(discriminate))).
  reflexivity.
Defined.

Lemma GetSecret_ID_witness :
  snd (model.GetSecret (K := example_more.kubernetes) example_more.secret) = None
  /\ model.ParseReferenceID
       (model.ReferenceID_String
          (model.Secret_ID (fst (model.GetSecret (K := example_more.kubernetes)
                                   example_more.secret))))
     = (model.mkReferenceID "v1" "Secret" "default" "db-conn", None).
Proof.
  apply (GetSecret_ID (K := example_more.kubernetes) example_more.secret); reflexivity.
Defined.


Lemma Revisions_smaller_limit_witness :
  resolvers.Revisions (E := example.externals)
    (resolvers.mkConfiguration (E := example.externals) (example.cache example.revisions))
    (Some "token"%string) "P"%string (Some 1) None
  = (Some (model.mkConfigurationRevisionConnection (E := example.externals)
             ["a"%string] 3), None).
Proof.
  apply (Revisions_smaller_limit (E := example.externals)
           (resolvers.mkConfiguration (E := example.externals)
              (example.cache example.revisions))
           (Some "token"%string) "P"%string 1 (Some 2) None
           (example.client example.revisions) example.revisions
           (model.mkConfigurationRevisionConnection (E := example.externals)
              ["a"; "c"]%string 3)
           eq_refl eq_refl ltac:(vm_compute; discriminate) ltac:(vm_compute; discriminate)
           eq_refl).
Defined.

Lemma Revisions_ignores_excluded_witness :
  resolvers.Revisions (E := example.externals)
    (resolvers.mkConfiguration (E := example.externals)
       (example.cache ([example.revision "a" "P" "Active"]
                       ++ example.revision "b" "Q" "Active"
                          :: [example.revision "c" "P" "Inactive"])))
    (Some "token"%string) "P"%string None None
  = resolvers.Revisions (E := example.externals)
      (resolvers.mkConfiguration (E := example.externals)
         (example.cache ([example.revision "a" "P" "Active"]
                         ++ [example.revision "c" "P" "Inactive"])))
      (Some "token"%string) "P"%string None None.
Proof.
  apply (Revisions_ignores_excluded (E := example.externals)
           (resolvers.mkConfiguration (E := example.externals)
              (example.cache ([example.revision "a" "P" "Active"]
                              ++ example.revision "b" "Q" "Active"
                                 :: [example.revision "c" "P" "Inactive"])))
           (resolvers.mkConfiguration (E := example.externals)
              (example.cache ([example.revision "a" "P" "Active"]
                              ++ [example.revision "c" "P" "Inactive"])))
           (Some "token"%string) "P"%string None None
           (example.client ([example.revision "a" "P" "Active"]
                            ++ example.revision "b" "Q" "Active"
                               :: [example.revision "c" "P" "Inactive"]))
           (example.client ([example.revision "a" "P" "Active"]
                            ++ [example.revision "c" "P" "Inactive"]))
           [example.revision "a" "P" "Active"] (example.revision "b" "Q" "Active")
           [example.revision "c" "P" "Inactive"]
           eq_refl eq_refl eq_refl eq_refl ltac:(vm_compute; discriminate) eq_refl).
Defined.

Lemma Revisions_Items_bounds_witness :
  Z.of_nat (List.length ["a"; "c"]%string) <= 3
  /\ 3 <= Z.of_nat (List.length example.revisions)
  /\ Z.of_nat (List.length ["a"; "c"]%string) <= Z.max 0 2.
Proof.
  apply (Revisions_Items_bounds (E := example.externals)
           (resolvers.mkConfiguration (E := example.externals)
              (example.cache example.revisions))
           (Some "token"%string) "P"%string (Some 2) None
           (example.client example.revisions) example.revisions
           (model.mkConfigurationRevisionConnection (E := example.externals)
              ["a"; "c"]%string 3) None
           eq_refl eq_refl ltac:(vm_compute; discriminate) eq_refl).
Defined.

Lemma Objects_fetches_within_limit_witness :
  (List.length
     (fst (resolvers.Objects (E := example.externals)
             (resolvers.mkConfigurationRevisionStatus (E := example.externals)
                example_more.cache)
             (Some "token"%string)
             (model.mkConfigurationRevisionStatus example_more.objectRefs) (Some 1%Z)))
   <= 3)%nat
  /\ Z.of_nat
       (List.length
          (fst (resolvers.Objects (E := example.externals)
                  (resolvers.mkConfigurationRevisionStatus (E := example.externals)
                     example_more.cache)
                  (Some "token"%string)
                  (model.mkConfigurationRevisionStatus example_more.objectRefs) (Some 1))))
     <= Z.max 0 1.
Proof.
  apply (Objects_fetches_within_limit (E := example.externals)
           (resolvers.mkConfigurationRevisionStatus (E := example.externals)
              example_more.cache)
           (Some "token"%string)
           (model.mkConfigurationRevisionStatus example_more.objectRefs) (Some 1)
           example_more.client eq_refl ltac:(vm_compute; discriminate)).
Defined.

Lemma Objects_one_fetch_per_item_witness :
  fst (resolvers.Objects (E := example.externals)
         (resolvers.mkConfigurationRevisionStatus (E := example.externals)
            example_more.cache)
         (Some "token"%string)
         (model.mkConfigurationRevisionStatus example_more.objectRefs) (Some 1))
  = [resolvers.FetchComposition "small"]
  /\ List.length [model.IsComposition (E := example.externals) "small"%string] = 1%nat.
Proof.
  apply (Objects_one_fetch_per_item (E := example.externals)
           (resolvers.mkConfigurationRevisionStatus (E := example.externals)
              example_more.cache)
           (Some "token"%string)
           (model.mkConfigurationRevisionStatus example_more.objectRefs) (Some 1)
           example_more.client
           (model.mkKubernetesResourceConnection (E := example.externals)
              [model.IsComposition (E := example.externals) "small"%string] 3)
           None eq_refl ltac:(vm_compute; discriminate) eq_refl).
Defined.

Lemma Objects_stops_at_the_failure_witness :
  fst (snd (resolvers.Objects (E := example.externals)
              (resolvers.mkConfigurationRevisionStatus (E := example.externals)
                 example_more.cache)
              (Some "token"%string)
              (model.mkConfigurationRevisionStatus example_more.objectRefs) None)) = None
  /\ exists ref pre,
       In ref example_more.objectRefs /\ inGroup ref = true
       /\ fetchFails (E := example.externals) example_more.client ref = true
       /\ fst (resolvers.Objects (E := example.externals)
                 (resolvers.mkConfigurationRevisionStatus (E := example.externals)
                    example_more.cache)
                 (Some "token"%string)
                 (model.mkConfigurationRevisionStatus example_more.objectRefs) None)
          = pre ++ [fetchOf ref].
Proof.
  apply (Objects_stops_at_the_failure (E := example.externals)
           (resolvers.mkConfigurationRevisionStatus (E := example.externals)
              example_more.cache)
           (Some "token"%string)
           (model.mkConfigurationRevisionStatus example_more.objectRefs) None
           example_more.client
           (errors.withMessage (errors.opaque "not found")
              "cannot get CompositeResourceDefinition")
           eq_refl ltac:(vm_compute; discriminate) eq_refl).
Defined.

Lemma Objects_fail_fast_witness :
  fst (snd (resolvers.Objects (E := example.externals)
              (resolvers.mkConfigurationRevisionStatus (E := example.externals)
                 example_more.cache)
              (Some "token"%string)
              (model.mkConfigurationRevisionStatus example_more.objectRefs) None)) = None
  /\ exists e,
       snd (snd (resolvers.Objects (E := example.externals)
                   (resolvers.mkConfigurationRevisionStatus (E := example.externals)
                      example_more.cache)
                   (Some "token"%string)
                   (model.mkConfigurationRevisionStatus example_more.objectRefs) None))
       = Some e.
Proof.
  apply (Objects_fail_fast (E := example.externals)
           (resolvers.mkConfigurationRevisionStatus (E := example.externals)
              example_more.cache)
           (Some "token"%string)
           (model.mkConfigurationRevisionStatus example_more.objectRefs) None
           example_more.client
           (xpv1.mkTypedReference "apiextensions.crossplane.io/v1"
              "CompositeResourceDefinition" "missing")
           eq_refl ltac:(vm_compute; discriminate)).
  - vm_compute. right. left. reflexivity.
  - reflexivity.
Defined.

Lemma Objects_Items_bounds_witness :
  Z.of_nat (List.length [model.IsComposition (E := example.externals) "small"%string]) <= 3
  /\ 3 <= Z.of_nat (List.length example_more.objectRefs)
  /\ Z.of_nat (List.length [model.IsComposition (E := example.externals) "small"%string])
     <= Z.max 0 1.
Proof.
  apply (Objects_Items_bounds (E := example.externals)
           (resolvers.mkConfigurationRevisionStatus (E := example.externals)
              example_more.cache)
           (Some "token"%string)
           (model.mkConfigurationRevisionStatus example_more.objectRefs) (Some 1)
           example_more.client
           (model.mkKubernetesResourceConnection (E := example.externals)
              [model.IsComposition (E := example.externals) "small"%string] 3)
           None eq_refl ltac:(vm_compute; discriminate) eq_refl).
Defined.

Lemma Objects_without_room_witness :
  resolvers.Objects (E := example.externals)
    (resolvers.mkConfigurationRevisionStatus (E := example.externals) example_more.cache)
    (Some "token"%string)
    (model.mkConfigurationRevisionStatus example_more.objectRefs) (Some 0)
  = ([], (Some (model.mkKubernetesResourceConnection (E := example.externals) [] 3), None)).
Proof.
  apply (Objects_without_room (E := example.externals)
           (resolvers.mkConfigurationRevisionStatus (E := example.externals)
              example_more.cache)
           (Some "token"%string)
           (model.mkConfigurationRevisionStatus example_more.objectRefs) 0
           example_more.client eq_refl ltac:(vm_compute; discriminate)
           ltac:(vm_compute; discriminate)).
Defined.
